(** * luogu-saver-bot: the remote-service client and the render-and-capture
      commands of [src/index.ts], embedded as Rocq functions.

    Conventions of the embedding.
    - A JavaScript string is a [string] of the bytes of its UTF-8 encoding.
      Every character the code inspects ([/], [&], [<], [>], the double
      quote) is ASCII, so inspecting bytes and inspecting UTF-16 code units
      agree.
    - A JavaScript number is a [JsNum]: NaN, an infinity, or a finite value
      (a rational; both zeros are the finite value 0, which is all that
      [===] and truthiness can see).
    - An [async] function is a function into [Res]: [Ret v] is a promise
      fulfilled with [v], [Thrown e] a promise rejected with [e].
    - Runtime and library functions that the repository calls but does not
      define ([encodeURIComponent], [Number.prototype.toString], the
      markdown-it renderer, the HTTP transport, the browser page) are
      variables of the sections that use them. *)

From Stdlib Require Import QArith Ascii String Sorted.
From stdpp Require Import base strings list gmap.

Local Open Scope string_scope.
Local Open Scope Z_scope.

(** ** JavaScript values *)

Module Js.

Inductive JsNum : Type :=
| JNaN
| JInf (negative : bool)
| JFin (q : Q).

Definition num_of_Z (z : Z) : JsNum := JFin (inject_Z z).

(** [a === b] on numbers: NaN equals nothing, not even itself. *)
Definition num_strict_eq (a b : JsNum) : bool :=
  match a, b with
  | JFin p, JFin q => Qeq_bool p q
  | JInf s, JInf t => Bool.eqb s t
  | _, _ => false
  end.

(** ToBoolean on numbers: [0], [-0] and [NaN] are falsy. *)
Definition num_truthy (a : JsNum) : bool :=
  match a with
  | JNaN => false
  | JInf _ => true
  | JFin q => negb (Qeq_bool q 0)
  end.

(** [a || b] on numbers. *)
Definition num_or (a b : JsNum) : JsNum :=
  if num_truthy a then a else b.

(** Values of type [any], as the untyped HTTP calls return them. *)
#[warnings="-register-all"] Inductive JsVal : Type :=
| VUndefined
| VNull
| VBool (b : bool)
| VNum (n : JsNum)
| VStr (s : string)
| VArr (items : list JsVal)
| VObj (fields : list (string * JsVal)).

Fixpoint own_property (fields : list (string * JsVal)) (name : string) : JsVal :=
  match fields with
  | [] => VUndefined
  | (k, v) :: rest => if String.eqb k name then v else own_property rest name
  end.

Definition nullish (v : JsVal) : bool :=
  match v with
  | VUndefined | VNull => true
  | _ => false
  end.

(** [v?.data]: [undefined] when [v] is [null] or [undefined]; the own
    property of an object; and [undefined] on an array, a string, a number
    or a boolean, none of which has or inherits a property [data]. *)
Definition opt_data (v : JsVal) : JsVal :=
  match v with
  | VObj fields => own_property fields "data"
  | _ => VUndefined
  end.

(** [a ?? b] *)
Definition nullish_or (a b : JsVal) : JsVal :=
  if nullish a then b else a.

(** ToBoolean on strings: only the empty string is falsy. *)
Definition str_truthy (s : string) : bool :=
  match s with
  | EmptyString => false
  | String _ _ => true
  end.

(** Outcome of awaiting a promise. *)
Inductive Err : Type :=
| TransportErr (cause : string)
| TimeoutErr
| PageErr (cause : string).

Inductive Res (A : Type) : Type :=
| Ret (a : A)
| Thrown (e : Err).
Global Arguments Ret {A} a.
Global Arguments Thrown {A} e.

End Js.
Import Js.

(** ** The client: [LuoguSaverClient] *)

Module Client.

(** [s.replace(/\/$/, '')]: without the [m] flag [$] matches only at the
    end of the input, so at most the last character is removed. *)
Fixpoint strip_trailing_slash (s : string) : string :=
  match s with
  | EmptyString => EmptyString
  | String c rest =>
      match rest with
      | EmptyString => if Ascii.eqb c "/"%char then EmptyString else s
      | String _ _ => String c (strip_trailing_slash rest)
      end
  end.

(** [path.startsWith('/')] *)
Definition starts_with_slash (path : string) : bool :=
  match path with
  | String c _ => Ascii.eqb c "/"%char
  | EmptyString => false
  end.

(** [buildUrl] of [src/index.ts], with [this.endpoint] as first argument. *)
Definition buildUrl (endpoint path : string) : string :=
  let base := strip_trailing_slash endpoint in
  if negb (str_truthy base) then path
  else if starts_with_slash path then base +:+ path
  else base +:+ "/" +:+ path.

(** [buildUrl] of the earlier revision of the client (the second source
    file): the same, but it writes [base + path] to the console before
    choosing the separator.  The result pairs the console lines with the
    returned URL. *)
Definition buildUrl_logging (endpoint path : string) : list string * string :=
  let base := strip_trailing_slash endpoint in
  if negb (str_truthy base) then ([], path)
  else if starts_with_slash path then ([base +:+ path], base +:+ path)
  else ([base +:+ path], base +:+ "/" +:+ path).

(** The spec's wording of the normalisation, for comparison with
    [buildUrl]: trim one trailing slash from the base; an empty base gives
    the path as it is; otherwise base, one slash, and the path without the
    slash it may start with. *)
Definition drop_leading_slash (path : string) : string :=
  match path with
  | String c rest => if Ascii.eqb c "/"%char then rest else path
  | EmptyString => path
  end.

Definition buildUrl_spec (endpoint path : string) : string :=
  match strip_trailing_slash endpoint with
  | EmptyString => path
  | base => base +:+ "/" +:+ drop_leading_slash path
  end.

(** *** Records of the remote service (the fields the code reads).
    [title], [content] and [renderedContent] are [option]s because the
    commands guard each of them with [??]: [None] is [null] or
    [undefined]. *)

Record StdResponse (A : Type) : Type := mkStdResponse {
  code : JsNum;
  message : string;
  data : A
}.
Global Arguments mkStdResponse {A} _ _ _.
Global Arguments code {A} _.
Global Arguments message {A} _.
Global Arguments data {A} _.

Record Article : Type := mkArticle {
  art_id : string;
  art_title : option string;
  art_content : option string;
  art_authorId : JsNum;
  art_renderedContent : option string
}.

Record PasteAuthor : Type := mkPasteAuthor {
  author_id : JsNum;
  author_name : string
}.

Record Paste : Type := mkPaste {
  paste_id : string;
  paste_content : option string;
  paste_authorId : JsNum;
  paste_renderedContent : option string;
  paste_author : option PasteAuthor
}.

Record TaskCreateResponse : Type := mkTaskCreateResponse { taskId : string }.

(** [TaskCreateSave | TaskCreateAi] *)
Inductive TaskCreate : Type :=
| TaskSave (target targetId : string) (metadata : option JsVal)
| TaskAi (target : string) (metadata : JsVal).

(** The argument of [getRecent]. *)
Record RecentOpts : Type := mkRecentOpts {
  count : option JsNum;
  updated_after : option string;
  truncated_count : option JsNum
}.

(** The envelope [{code, message, data}] as a value of type [any]. *)
Definition envelope (c : JsNum) (m : string) (d : JsVal) : JsVal :=
  VObj [("code", VNum c); ("message", VStr m); ("data", d)].

Abbreviation Headers := (gmap string string).

(** [URLSearchParams.set]: replace the value of the first pair named
    [k] and drop the later ones, or append a new pair. *)
Fixpoint params_replace (k v : string) (ps : list (string * string))
  : list (string * string) :=
  match ps with
  | [] => []
  | (k', v') :: rest =>
      if String.eqb k' k
      then (k, v) :: filter (fun kv => negb (String.eqb (fst kv) k)) rest
      else (k', v') :: params_replace k v rest
  end.

Definition params_set (k v : string) (ps : list (string * string))
  : list (string * string) :=
  if existsb (fun kv => String.eqb (fst kv) k) ps
  then params_replace k v ps
  else ps ++ [(k, v)].

Section client.

(** [this.endpoint], [this.userAgent] *)
Variable endpoint userAgent : string.

(** Runtime functions. *)
Variable encodeURIComponent : string -> string.
Variable String_of_number : JsNum -> string.
Variable form_urlencode : string -> string.

(** [this.ctx.http]: one function per type at which the client calls
    it.  The calls without a type argument return [any]. *)
Variable http_get_article : string -> Headers -> Res (StdResponse Article).
Variable http_get_paste : string -> Headers -> Res (StdResponse Paste).
Variable http_get_task : string -> Headers -> Res (StdResponse JsVal).
Variable http_post_task :
  string -> TaskCreate -> Headers -> Res (StdResponse TaskCreateResponse).
Variable http_get_any : string -> Headers -> Res JsVal.

(** [Object.assign({ 'User-Agent': this.userAgent }, extra || {})]:
    a name of [extra] overrides the same name of the first object. *)
Definition headers (extra : option Headers) : Headers :=
  default ∅ extra ∪ {[ "User-Agent" := userAgent ]}.

(** [URLSearchParams.toString] *)
Definition params_toString (ps : list (string * string)) : string :=
  String.concat "&"
    (map (fun kv => form_urlencode (fst kv) +:+ "=" +:+ form_urlencode (snd kv)) ps).

Definition getArticle (id : string) (extra : option Headers)
  : Res (option Article) :=
  let url := buildUrl endpoint ("/article/query/" +:+ encodeURIComponent id) in
  match http_get_article url (headers extra) with
  | Thrown e => Thrown e
  | Ret res =>
      if negb (num_strict_eq (code res) (num_of_Z 200)) then Ret None
      else Ret (Some (data res))
  end.

Definition getPaste (id : string) (extra : option Headers)
  : Res (option Paste) :=
  let url := buildUrl endpoint ("/paste/query/" +:+ encodeURIComponent id) in
  match http_get_paste url (headers extra) with
  | Thrown e => Thrown e
  | Ret res =>
      if negb (num_strict_eq (code res) (num_of_Z 200)) then Ret None
      else Ret (Some (data res))
  end.

(** The [path] constant of [getRecent]. *)
Definition recent_path (opts : option RecentOpts) : string :=
  let params := [] in
  let params :=
    match opts ≫= count with
    | Some n => params_set "count" (String_of_number n) params
    | None => params
    end in
  let params :=
    match opts ≫= updated_after with
    | Some s => if str_truthy s then params_set "updated_after" s params else params
    | None => params
    end in
  let params :=
    match opts ≫= truncated_count with
    | Some n => params_set "truncated_count" (String_of_number n) params
    | None => params
    end in
  "/article/recent" +:+
    (if str_truthy (params_toString params)
     then "?" +:+ params_toString params else EmptyString).

(** [res?.data?.data ?? null], the return expression shared by
    [getRecent], [getCount], [getRelevant] and [getHistory]. *)
Definition unwrap_data_data (res : JsVal) : JsVal :=
  nullish_or (opt_data (opt_data res)) VNull.

Definition getRecent (opts : option RecentOpts) (extra : option Headers)
  : Res JsVal :=
  let url := buildUrl endpoint (recent_path opts) in
  match http_get_any url (headers extra) with
  | Thrown e => Thrown e
  | Ret res => Ret (unwrap_data_data res)
  end.

Definition getCount (extra : option Headers) : Res JsVal :=
  let url := buildUrl endpoint "/article/count" in
  match http_get_any url (headers extra) with
  | Thrown e => Thrown e
  | Ret res => Ret (unwrap_data_data res)
  end.

Definition getRelevant (id : string) (extra : option Headers) : Res JsVal :=
  let url := buildUrl endpoint ("/article/relevant/" +:+ encodeURIComponent id) in
  match http_get_any url (headers extra) with
  | Thrown e => Thrown e
  | Ret res => Ret (unwrap_data_data res)
  end.

Definition getHistory (id : string) (extra : option Headers) : Res JsVal :=
  let url := buildUrl endpoint ("/article/history/" +:+ encodeURIComponent id) in
  match http_get_any url (headers extra) with
  | Thrown e => Thrown e
  | Ret res => Ret (unwrap_data_data res)
  end.

Definition createTask (body : TaskCreate) (extra : option Headers)
  : Res (option string) :=
  let url := buildUrl endpoint "/task/create" in
  match http_post_task url body (headers extra) with
  | Thrown e => Thrown e
  | Ret res =>
      if negb (num_strict_eq (code res) (num_of_Z 200)) then Ret None
      else Ret (Some (taskId (data res)))
  end.

(** [getTask] returns [res.data] itself, which the type [TaskQuery]
    allows to be [null]; absence is again [VNull]. *)
Definition getTask (id : string) (extra : option Headers) : Res JsVal :=
  let url := buildUrl endpoint ("/task/query/" +:+ encodeURIComponent id) in
  match http_get_task url (headers extra) with
  | Thrown e => Thrown e
  | Ret res =>
      if negb (num_strict_eq (code res) (num_of_Z 200)) then Ret VNull
      else Ret (data res)
  end.

End client.

End Client.

(** ** The markup renderer: [generateHtml] *)

Module Render.

Definition nl : string := String "010"%char EmptyString.
Definition dq : string := String "034"%char EmptyString.

(** [md.utils.escapeHtml] of markdown-it: every [&], [<], [>] and double
    quote is replaced by its entity, every other character is kept. *)
Definition escape_char (c : ascii) : string :=
  if Ascii.eqb c "&"%char then "&amp;"
  else if Ascii.eqb c "<"%char then "&lt;"
  else if Ascii.eqb c ">"%char then "&gt;"
  else if Ascii.eqb c "034"%char then "&quot;"
  else String c EmptyString.

Fixpoint escapeHtml (s : string) : string :=
  match s with
  | EmptyString => EmptyString
  | String c rest => escape_char c +:+ escapeHtml rest
  end.

(** The options [generateHtml] gives to [new MarkdownIt(...)] and to the
    KaTeX plugin. *)
Record MdConfig : Type := mkMdConfig {
  md_html : bool;
  md_breaks : bool;
  katex_allowFunctionInTextMode : bool;
  katex_strict : bool
}.

Definition generateHtml_config : MdConfig :=
  {| md_html := true;
     md_breaks := true;
     katex_allowFunctionInTextMode := true;
     katex_strict := false |}.

(** The template literal of [generateHtml] up to the title, line by line. *)
Definition page_head_lines : list string := [
  "<!doctype html>";
  "<html>";
  "<head>";
  "  <meta charset=" +:+ dq +:+ "utf-8" +:+ dq +:+ ">";
  "  <meta name=" +:+ dq +:+ "viewport" +:+ dq +:+ " content=" +:+ dq +:+ "width=device-width,initial-scale=1" +:+ dq +:+ ">";
  "  ";
  "  <link rel=" +:+ dq +:+ "stylesheet" +:+ dq +:+ " href=" +:+ dq +:+ "https://cdn.jsdelivr.net/npm/highlight.js@11.7.0/styles/github.min.css" +:+ dq +:+ ">";
  "  ";
  "  <link rel=" +:+ dq +:+ "stylesheet" +:+ dq +:+ " href=" +:+ dq +:+ "https://cdn.jsdelivr.net/npm/katex@0.16.4/dist/katex.min.css" +:+ dq +:+ ">";
  EmptyString;
  "  <style>";
  "    /* 基础重置与变量 */";
  "    :root {";
  "      --bg-color: #f6f8fa;";
  "      --card-bg: #ffffff;";
  "      --text-primary: #24292f;";
  "      --text-secondary: #57606a;";
  "      --border-color: #d0d7de;";
  "      --accent-color: #0969da;";
  "    }";
  "    ";
  "    body {";
  "      margin: 0;";
  "      padding: 40px;";
  "      background-color: var(--bg-color);";
  "      font-family: -apple-system, BlinkMacSystemFont, " +:+ dq +:+ "Segoe UI" +:+ dq +:+ ", " +:+ dq +:+ "Noto Sans" +:+ dq +:+ ", Helvetica, Arial, sans-serif, " +:+ dq +:+ "Apple Color Emoji" +:+ dq +:+ ", " +:+ dq +:+ "Segoe UI Emoji" +:+ dq +:+ ";";
  "      color: var(--text-primary);";
  "      line-height: 1.5;";
  "    }";
  EmptyString;
  "    .container {";
  "      max-width: 900px;";
  "      margin: 0 auto;";
  "    }";
  EmptyString;
  "    .card {";
  "      background: var(--card-bg);";
  "      border: 1px solid var(--border-color);";
  "      border-radius: 6px;";
  "      padding: 32px 40px;";
  "      box-shadow: 0 3px 6px rgba(140, 149, 159, 0.15);";
  "    }";
  EmptyString;
  "    /* 头部信息 */";
  "    header {";
  "      border-bottom: 1px solid var(--border-color);";
  "      padding-bottom: 20px;";
  "      margin-bottom: 24px;";
  "    }";
  "    ";
  "    h1.title {";
  "      margin: 0 0 8px 0;";
  "      font-size: 28px;";
  "      font-weight: 600;";
  "    }";
  EmptyString;
  "    .meta {";
  "      font-size: 14px;";
  "      color: var(--text-secondary);";
  "    }";
  EmptyString;
  "    /* Markdown 内容美化 (仿 GitHub 风格) */";
  "    .markdown-body {";
  "      font-size: 16px;";
  "      line-height: 1.6;";
  "    }";
  EmptyString;
  "    .markdown-body h1, .markdown-body h2, .markdown-body h3 {";
  "      margin-top: 24px;";
  "      margin-bottom: 16px;";
  "      font-weight: 600;";
  "      line-height: 1.25;";
  "    }";
  "    .markdown-body h1 { font-size: 2em; padding-bottom: .3em; border-bottom: 1px solid #d0d7de; }";
  "    .markdown-body h2 { font-size: 1.5em; padding-bottom: .3em; border-bottom: 1px solid #d0d7de; }";
  "    .markdown-body h3 { font-size: 1.25em; }";
  EmptyString;
  "    .markdown-body p { margin-bottom: 16px; }";
  "    ";
  "    .markdown-body a { color: var(--accent-color); text-decoration: none; }";
  "    .markdown-body a:hover { text-decoration: underline; }";
  EmptyString;
  "    .markdown-body blockquote {";
  "      margin: 0 0 16px;";
  "      padding: 0 1em;";
  "      color: var(--text-secondary);";
  "      border-left: 0.25em solid var(--border-color);";
  "    }";
  EmptyString;
  "    .markdown-body ul, .markdown-body ol { padding-left: 2em; margin-bottom: 16px; }";
  EmptyString;
  "    /* 表格样式 */";
  "    .markdown-body table {";
  "      border-spacing: 0;";
  "      border-collapse: collapse;";
  "      margin-bottom: 16px;";
  "      width: max-content;";
  "      max-width: 100%;";
  "      overflow: auto;";
  "      display: block;";
  "    }";
  "    .markdown-body table th, .markdown-body table td {";
  "      padding: 6px 13px;";
  "      border: 1px solid var(--border-color);";
  "    }";
  "    .markdown-body table tr { background-color: #fff; border-top: 1px solid #c6cbd1; }";
  "    .markdown-body table tr:nth-child(2n) { background-color: #f6f8fa; }";
  EmptyString;
  "    /* 代码块微调 */";
  "    .markdown-body pre {";
  "      padding: 16px;";
  "      overflow: auto;";
  "      font-size: 85%;";
  "      line-height: 1.45;";
  "      background-color: #f6f8fa;";
  "      border-radius: 6px;";
  "    }";
  "    .markdown-body code {";
  "      padding: 0.2em 0.4em;";
  "      margin: 0;";
  "      font-size: 85%;";
  "      background-color: rgba(175,184,193,0.2);";
  "      border-radius: 6px;";
  "      font-family: ui-monospace, SFMono-Regular, " +:+ dq +:+ "SF Mono" +:+ dq +:+ ", Menlo, Consolas, " +:+ dq +:+ "Liberation Mono" +:+ dq +:+ ", monospace;";
  "    }";
  "    .markdown-body pre code {";
  "      padding: 0;";
  "      background-color: transparent;";
  "    }";
  "    ";
  "    /* 图片自适应 */";
  "    .markdown-body img {";
  "      max-width: 100%;";
  "      box-sizing: content-box;";
  "      background-color: #fff;";
  "    }";
  "    ";
  "    /* KaTeX 字体修复 */";
  "    .katex { font-size: 1.1em; }";
  "  </style>";
  "</head>";
  "<body>";
  "  <div class=" +:+ dq +:+ "container" +:+ dq +:+ ">";
  "    <div class=" +:+ dq +:+ "card" +:+ dq +:+ ">";
  "      <header>";
  "        <h1 class=" +:+ dq +:+ "title" +:+ dq +:+ ">"
].

Definition page_head : string := String.concat nl page_head_lines.

(** Between the title and the author line. *)
Definition page_after_title_lines : list string := [
  "</h1>";
  "        <div class=" +:+ dq +:+ "meta" +:+ dq +:+ ">"
].

Definition page_after_title : string := String.concat nl page_after_title_lines.

(** Between the author line and the rendered body. *)
Definition page_after_meta_lines : list string := [
  "</div>";
  "      </header>";
  "      <article class=" +:+ dq +:+ "markdown-body" +:+ dq +:+ ">";
  "        "
].

Definition page_after_meta : string := String.concat nl page_after_meta_lines.

(** After the rendered body. *)
Definition page_tail_lines : list string := [
  EmptyString;
  "      </article>";
  "    </div>";
  "  </div>";
  "</body>";
  "</html>"
].

Definition page_tail : string := String.concat nl page_tail_lines.

Section generateHtml.

(** [md.render] of a markdown-it instance built with the given options.
    The dynamic import of the KaTeX plugin is taken to succeed. *)
Variable md_render : MdConfig -> string -> string.

Definition generateHtml (title authorInfo markdownContent : string) : string :=
  let renderedBody := md_render generateHtml_config markdownContent in
  page_head +:+ escapeHtml title +:+ page_after_title
    +:+ escapeHtml authorInfo +:+ page_after_meta
    +:+ renderedBody +:+ page_tail.

End generateHtml.

(** [s.includes(needle)] *)
Fixpoint includes (needle s : string) : bool :=
  String.prefix needle s ||
  match s with
  | EmptyString => false
  | String _ rest => includes needle rest
  end.

(** A text with no character that opens or closes a tag or ends an
    attribute value: no [<], no [>], no double quote. *)
Fixpoint markup_free (s : string) : bool :=
  match s with
  | EmptyString => true
  | String c rest =>
      negb (Ascii.eqb c "<"%char) && negb (Ascii.eqb c ">"%char)
      && negb (Ascii.eqb c "034"%char) && markup_free rest
  end.

End Render.

(** ** The in-page image wait

    The function both commands give to [page.evaluate]: the executor of a
    promise that watches [document.images].  Time is counted in
    milliseconds from the moment the executor runs.  The page is a state
    machine: the executor builds the first state, and every later image
    event or timer expiry is one step. *)

Module ImageWait.

Inductive Command : Type := ArticleCmd | PasteCmd.

Inductive EventType : Type := OnLoad | OnError.

Definition event_type_eqb (a b : EventType) : bool :=
  match a, b with
  | OnLoad, OnLoad | OnError, OnError => true
  | _, _ => false
  end.

(** An element of [document.images]: its [complete] flag when the
    executor visits it. *)
Record Img : Type := mkImg { complete : bool }.

(** What the executor and its callbacks call, in order. *)
Inductive PageOp : Type :=
| OpResolve
| OpSetTimeout (ms : Z)
| OpClearTimeout
| OpAddEventListener (img : nat) (type : EventType).

Record PState : Type := mkPState {
  loaded : nat;                          (* the counter [loaded] *)
  registry : list (nat * EventType);     (* listeners: image index, type *)
  timer : option Z;                      (* deadline of the pending timer *)
  resolved : option Z;                   (* when the promise was fulfilled *)
  ops : list PageOp                      (* calls so far, oldest first *)
}.

Definition initial : PState :=
  {| loaded := 0; registry := []; timer := None; resolved := None; ops := [] |}.

(** [resolve(null)] at time [now]: only the first call settles the promise. *)
Definition resolve (now : Z) (st : PState) : PState :=
  {| loaded := loaded st; registry := registry st; timer := timer st;
     resolved := match resolved st with Some t => Some t | None => Some now end;
     ops := ops st ++ [OpResolve] |}.

(** [setTimeout(() => resolve(null), ms)] at time [now]. *)
Definition setTimeout (now ms : Z) (st : PState) : PState :=
  {| loaded := loaded st; registry := registry st; timer := Some (now + ms);
     resolved := resolved st; ops := ops st ++ [OpSetTimeout ms] |}.

Definition clearTimeout (st : PState) : PState :=
  {| loaded := loaded st; registry := registry st; timer := None;
     resolved := resolved st; ops := ops st ++ [OpClearTimeout] |}.

Definition addEventListener (img : nat) (type : EventType) (st : PState) : PState :=
  {| loaded := loaded st; registry := registry st ++ [(img, type)];
     timer := timer st; resolved := resolved st;
     ops := ops st ++ [OpAddEventListener img type] |}.

(** [loaded++] *)
Definition incr_loaded (st : PState) : PState :=
  {| loaded := S (loaded st); registry := registry st; timer := timer st;
     resolved := resolved st; ops := ops st |}.

(** The body of [imgs.forEach]; the two commands register the same
    listeners and differ only in where the handler is created.  [i] is the
    index of the first image of [todo]. *)
Fixpoint forEach_img (i : nat) (todo : list Img) (st : PState) : PState :=
  match todo with
  | [] => st
  | img :: rest =>
      forEach_img (S i) rest
        (if complete img then incr_loaded st
         else addEventListener i OnError (addEventListener i OnLoad st))
  end.

(** The [handler] of each command, called at time [now]; [n] is
    [imgs.length]. *)
Definition handler (cmd : Command) (n : nat) (now : Z) (st : PState) : PState :=
  let st := incr_loaded st in
  if Nat.eqb (loaded st) n then
    match cmd with
    | ArticleCmd => resolve now (clearTimeout st)
    | PasteCmd => resolve now st
    end
  else st.

(** The promise executor of the article command (lines 414-443). *)
Definition article_executor (imgs : list Img) : PState :=
  if Nat.eqb (length imgs) 0 then resolve 0 initial
  else
    let st := setTimeout 0 5000 initial in
    let st := forEach_img 0 imgs st in
    if Nat.eqb (loaded st) (length imgs) then resolve 0 (clearTimeout st)
    else st.

(** The promise executor of the paste command (lines 486-498). *)
Definition paste_executor (imgs : list Img) : PState :=
  if Nat.eqb (length imgs) 0 then resolve 0 initial
  else
    let st := forEach_img 0 imgs initial in
    let st := if Nat.eqb (loaded st) (length imgs) then resolve 0 st else st in
    setTimeout 0 5000 st.

Definition executor (cmd : Command) (imgs : list Img) : PState :=
  match cmd with
  | ArticleCmd => article_executor imgs
  | PasteCmd => paste_executor imgs
  end.

(** The timer callback [() => resolve(null)] runs at its deadline. *)
Definition fire_timer (st : PState) : PState :=
  match timer st with
  | Some deadline =>
      resolve deadline
        {| loaded := loaded st; registry := registry st; timer := None;
           resolved := resolved st; ops := ops st |}
  | None => st
  end.

Definition timer_due (now : Z) (st : PState) : bool :=
  match timer st with
  | Some deadline => deadline <=? now
  | None => false
  end.

(** An image event: time, index of the image in [document.images], type. *)
Definition ImgEvent : Type := Z * nat * EventType.

Definition listens (ev : ImgEvent) (entry : nat * EventType) : bool :=
  Nat.eqb (fst entry) (snd (fst ev)) && event_type_eqb (snd entry) (snd ev).

(** One call of the handler for each listener of [l], at time [now]. *)
Definition call_handlers (cmd : Command) (n : nat) (now : Z)
    (l : list (nat * EventType)) (st : PState) : PState :=
  fold_left (fun st _ => handler cmd n now st) l st.

(** The browser calls every listener registered for the image and type. *)
Definition dispatch (cmd : Command) (n : nat) (ev : ImgEvent) (st : PState) : PState :=
  call_handlers cmd n (fst (fst ev)) (List.filter (listens ev) (registry st)) st.

(** The event loop over the image events in the order they occur; a timer
    whose deadline has come runs before the event, and a timer still
    pending when the events are over runs at its deadline. *)
Fixpoint event_loop (cmd : Command) (n : nat) (events : list ImgEvent) (st : PState)
  : PState :=
  match events with
  | [] => fire_timer st
  | ev :: rest =>
      let st := if timer_due (fst (fst ev)) st then fire_timer st else st in
      event_loop cmd n rest (dispatch cmd n ev st)
  end.

(** The whole wait: the executor, then the events. *)
Definition image_wait (cmd : Command) (imgs : list Img) (events : list ImgEvent)
  : PState :=
  event_loop cmd (length imgs) events (executor cmd imgs).

(** *** Vocabulary for the statements about the wait *)

(** The promise is fulfilled, and was so no later than [T]. *)
Definition settled_by (T : Z) (st : PState) : Prop :=
  ∃ t, resolved st = Some t ∧ t ≤ T.

(** The promise is pending and the 5000 ms timer is running. *)
Definition armed (st : PState) : Prop :=
  resolved st = None ∧ timer st = Some 5000.

(** Fulfilled within the ceiling, or pending with the timer running. *)
Definition bounded (st : PState) : Prop := settled_by 5000 st ∨ armed st.

(** The only timer there ever is has its deadline at 5000 ms. *)
Definition timer_ok (st : PState) : Prop :=
  ∀ d, timer st = Some d → d = 5000.

(** Indices, from [i] on, of the images that are not complete. *)
Fixpoint pending_from (i : nat) (todo : list Img) : list nat :=
  match todo with
  | [] => []
  | img :: rest =>
      if complete img then pending_from (S i) rest
      else i :: pending_from (S i) rest
  end.

(** The listeners [forEach] registers for the images [P]. *)
Definition entries (P : list nat) : list (nat * EventType) :=
  flat_map (fun j => [(j, OnLoad); (j, OnError)]) P.

Fixpoint count_in (j : nat) (P : list nat) : nat :=
  match P with
  | [] => 0%nat
  | k :: rest => ((if Nat.eqb k j then 1 else 0) + count_in j rest)%nat
  end.

(** Handler calls that the events make when the listeners are those of [P]. *)
Fixpoint total_hits (P : list nat) (events : list ImgEvent) : nat :=
  match events with
  | [] => 0%nat
  | ev :: rest => (count_in (snd (fst ev)) P + total_hits P rest)%nat
  end.

End ImageWait.

(** ** The render-and-capture commands *)

Module Capture.

Import Client Render ImageWait.

Record Viewport : Type := mkViewport {
  width : JsNum;
  height : Z;
  deviceScaleFactor : Z
}.

(** What a command does to the world outside it, in order. *)
Inductive Event : Type :=
| EvPage                                        (* [ctx.puppeteer.page()] gave a page *)
| EvSetViewport (vp : Viewport)
| EvSetContent (html waitUntil : string)
| EvFontsReady                                  (* [document.fonts.ready] awaited *)
| EvImageWait (cmd : Command)                   (* the image promise awaited *)
| EvWaitForFunction (expr : string) (timeout : Z)
| EvScreenshot (fullPage : bool) (type : string)
| EvWarn (msg : string)
| EvError (msg : string)
| EvClose.                                      (* [page.close()] called *)

(** The surfaces still available and the calls made so far. *)
Record World : Type := mkWorld {
  available : Z;
  log : list Event
}.

Definition emit (ev : Event) (w : World) : World :=
  {| available := available w; log := log w ++ [ev] |}.

(** Everything a command is given by its surroundings: the client's
    configuration and transport, the runtime functions, and how each call
    on the browser page ends. *)
Record Env : Type := mkEnv {
  config_endpoint : option string;
  config_userAgent : option string;
  encodeURIComponent : string -> string;
  String_of_number : JsNum -> string;
  http_get_article : string -> Headers -> Res (StdResponse Article);
  http_get_paste : string -> Headers -> Res (StdResponse Paste);
  md_render : MdConfig -> string -> string;
  has_puppeteer : bool;                         (* [ctx.puppeteer] is set *)
  page_outcome : Res unit;                      (* [ctx.puppeteer.page()] *)
  setViewport_outcome : Viewport -> Res unit;
  setContent_outcome : string -> Res unit;
  fonts_outcome : Res unit;
  document_images : list Img;
  image_events : list ImgEvent;
  evaluate_fault : option Err;                  (* the evaluate call itself fails *)
  waitForFunction_outcome : string -> Z -> Res unit;
  screenshot_outcome : Res string
}.

Inductive Reply : Type :=
| Text (s : string)
| Image (buffer : string) (mime : string).

(** [a || b] on an optional string: [b] when [a] is absent or empty. *)
Definition str_or (a : option string) (b : string) : string :=
  match a with
  | Some s => if str_truthy s then s else b
  | None => b
  end.

(** The fields of the client that [apply] builds:
    [config.endpoint || ''] and [config.userAgent || 'Uptime-Kuma']. *)
Definition endpoint (env : Env) : string :=
  str_or (config_endpoint env) EmptyString.

Definition userAgent (env : Env) : string :=
  str_or (config_userAgent env) "Uptime-Kuma".

(** *** A state-and-exception monad for the commands *)

Definition M (A : Type) : Type := World -> Res A * World.

Definition ret {A} (a : A) : M A := fun w => (Ret a, w).

Definition bind {A B} (m : M A) (k : A -> M B) : M B :=
  fun w =>
    match m w with
    | (Ret a, w') => k a w'
    | (Thrown e, w') => (Thrown e, w')
    end.

Definition lift {A} (r : Res A) : M A := fun w => (r, w).

Definition do_emit (ev : Event) : M unit := fun w => (Ret tt, emit ev w).

Notation "x <- m ;; k" := (bind m (fun x => k))
  (at level 100, m at next level, right associativity).
Notation "m ;;; k" := (bind m (fun _ => k))
  (at level 100, right associativity).

(** [try { body } catch (e) { handler }] *)
Definition try_catch {A} (body : M A) (handler : Err -> M A) : M A :=
  fun w =>
    match body w with
    | (Ret a, w') => (Ret a, w')
    | (Thrown e, w') => handler e w'
    end.

(** [try { body } finally { fin }]: [fin] runs on every exit of [body];
    if it throws, its exception replaces the outcome of [body]. *)
Definition try_finally {A} (body : M A) (fin : M unit) : M A :=
  fun w =>
    match body w with
    | (r, w') =>
        match fin w' with
        | (Ret _, w'') => (r, w'')
        | (Thrown e, w'') => (Thrown e, w'')
        end
    end.

(** *** Calls on the page *)

Section page.

Variable env : Env.

(** [await ctx.puppeteer.page()]: a fulfilled call takes one surface. *)
Definition acquire_page : M unit :=
  fun w =>
    match page_outcome env with
    | Ret _ => (Ret tt, emit EvPage {| available := available w - 1; log := log w |})
    | Thrown e => (Thrown e, w)
    end.

(** [page.close()], not awaited: the call gives the surface back, and a
    rejection of the promise it returns reaches nobody. *)
Definition page_close : M unit :=
  fun w => (Ret tt, emit EvClose {| available := available w + 1; log := log w |}).

Definition page_setViewport (vp : Viewport) : M unit :=
  do_emit (EvSetViewport vp) ;;; lift (setViewport_outcome env vp).

Definition page_setContent (html waitUntil : string) : M unit :=
  do_emit (EvSetContent html waitUntil) ;;; lift (setContent_outcome env html).

Definition page_fonts_ready : M unit :=
  do_emit EvFontsReady ;;; lift (fonts_outcome env).

(** [await page.evaluate(() => new Promise(...))] with the image promise of
    [cmd]: fulfilled when the in-page promise is, which it always is; a
    promise left pending would end the call with the protocol timeout. *)
Definition page_image_wait (cmd : Command) : M unit :=
  do_emit (EvImageWait cmd) ;;;
  lift (match evaluate_fault env with
        | Some e => Thrown e
        | None =>
            match resolved (image_wait cmd (document_images env) (image_events env)) with
            | Some _ => Ret tt
            | None => Thrown TimeoutErr
            end
        end).

Definition page_waitForFunction (expr : string) (timeout : Z) : M unit :=
  do_emit (EvWaitForFunction expr timeout) ;;;
  lift (waitForFunction_outcome env expr timeout).

Definition page_screenshot (fullPage : bool) (type : string) : M string :=
  do_emit (EvScreenshot fullPage type) ;;; lift (screenshot_outcome env).

Definition logger_warn (msg : string) : M unit := do_emit (EvWarn msg).
Definition logger_error (msg : string) : M unit := do_emit (EvError msg).

(** [Number(options.width)]: the option is a number or absent
    ([undefined]). *)
Definition Number (v : option JsNum) : JsNum :=
  match v with
  | Some n => n
  | None => JNaN
  end.

(** [Number(options.width) || 960] *)
Definition viewport_width (options_width : option JsNum) : JsNum :=
  num_or (Number options_width) (num_of_Z 960).

(** [!id] for a command argument: absent or the empty string. *)
Definition arg_missing (id : option string) : bool :=
  match id with
  | Some s => negb (str_truthy s)
  | None => true
  end.

(** [a ?? b] on optional strings. *)
Definition or_else (a b : option string) : option string :=
  match a with
  | Some s => Some s
  | None => b
  end.

(** The [try]/[catch]/[finally] statement of the article command. *)
Definition article_session (html : string) (options_width : option JsNum) : M Reply :=
  try_finally
    (try_catch
       (let width := viewport_width options_width in
        page_setViewport {| width := width; height := 800; deviceScaleFactor := 2 |} ;;;
        page_setContent html "networkidle0" ;;;
        try_catch page_fonts_ready
          (fun _ => logger_warn "等待字体加载超时或失败") ;;;
        try_catch (page_image_wait ArticleCmd) (fun _ => ret tt) ;;;
        buffer <- page_screenshot true "png" ;;
        ret (Image buffer "image/png"))
       (fun _ => logger_error "截图文章失败" ;;; ret (Text "获取失败")))
    page_close.

(** The action of the command [获取文章]. *)
Definition article_command (id : option string) (options_width : option JsNum)
  : M Reply :=
  if arg_missing id then ret (Text "请提供文章 ID")
  else
    art <- lift (getArticle (endpoint env) (userAgent env) (encodeURIComponent env)
                   (http_get_article env) (default EmptyString id) None) ;;
    match art with
    | None => ret (Text "未找到文章")
    | Some art =>
        let rawContent :=
          default EmptyString (or_else (art_content art) (art_renderedContent art)) in
        let title := default EmptyString (art_title art) in
        let authorInfo := "作者 UID: " +:+ String_of_number env (art_authorId art) in
        let html := generateHtml (md_render env) title authorInfo rawContent in
        if negb (has_puppeteer env) then ret (Text "当前没有可用的 puppeteer 服务。")
        else acquire_page ;;; article_session html options_width
    end.

(** The [try]/[catch]/[finally] statement of the paste command. *)
Definition paste_session (html : string) (options_width : option JsNum) : M Reply :=
  try_finally
    (try_catch
       (let width := viewport_width options_width in
        page_setViewport {| width := width; height := 800; deviceScaleFactor := 2 |} ;;;
        page_setContent html "networkidle0" ;;;
        try_catch (page_waitForFunction "window.__katex_render_done === true" 20000)
          (fun _ => ret tt) ;;;
        try_catch (page_image_wait PasteCmd) (fun _ => ret tt) ;;;
        buffer <- page_screenshot true "png" ;;
        ret (Image buffer "image/png"))
       (fun _ => logger_error "截图剪贴板失败" ;;; ret (Text "获取失败。")))
    page_close.

(** The action of the command [获取剪贴板]. *)
Definition paste_command (id : option string) (options_width : option JsNum)
  : M Reply :=
  if arg_missing id then ret (Text "请提供剪贴板 ID")
  else
    paste <- lift (getPaste (endpoint env) (userAgent env) (encodeURIComponent env)
                     (http_get_paste env) (default EmptyString id) None) ;;
    match paste with
    | None => ret (Text "未找到剪贴板内容")
    | Some paste =>
        let rawContent :=
          default EmptyString (or_else (paste_content paste) (paste_renderedContent paste)) in
        let title := "剪贴板: " +:+ paste_id paste in
        let authorInfo :=
          match paste_author paste with
          | Some author =>
              "创建者: " +:+ author_name author +:+ " (UID: "
                +:+ String_of_number env (author_id author) +:+ ")"
          | None => "创建者 UID: " +:+ String_of_number env (paste_authorId paste)
          end in
        let html := generateHtml (md_render env) title authorInfo rawContent in
        if negb (has_puppeteer env) then ret (Text "当前没有可用的 puppeteer 服务。")
        else acquire_page ;;; paste_session html options_width
    end.

End page.

(** A command run from a state with [n] surfaces available and an empty
    log. *)
Definition start (n : Z) : World := {| available := n; log := [] |}.

Definition run_command (cmd : Command) (env : Env) (id : option string)
    (options_width : option JsNum) (n : Z) : Res Reply * World :=
  match cmd with
  | ArticleCmd => article_command env id options_width (start n)
  | PasteCmd => paste_command env id options_width (start n)
  end.

Definition is_close (ev : Event) : bool :=
  match ev with
  | EvClose => true
  | _ => false
  end.

Definition is_page (ev : Event) : bool :=
  match ev with
  | EvPage => true
  | _ => false
  end.

Definition is_viewport (ev : Event) : bool :=
  match ev with
  | EvSetViewport _ => true
  | _ => false
  end.

Definition is_fonts (ev : Event) : bool :=
  match ev with
  | EvFontsReady => true
  | _ => false
  end.

(** A call after [setViewport]: neither acquiring a page nor setting the
    viewport. *)
Definition later_call (ev : Event) : bool :=
  negb (is_page ev || is_viewport ev).

(** A number other than [0], [-0] and [NaN]. *)
Definition nonzero_number (x : JsNum) : Prop :=
  match x with
  | JNaN => False
  | JInf _ => True
  | JFin q => ¬ (q == 0)%Q
  end.

(** The viewport both commands ask for. *)
Definition viewport_of (options_width : option JsNum) : Viewport :=
  {| width := viewport_width options_width; height := 800; deviceScaleFactor := 2 |}.

(** How many times [page.close()] was called. *)
Fixpoint closes (evs : list Event) : nat :=
  match evs with
  | [] => 0%nat
  | ev :: rest => ((if is_close ev then 1 else 0) + closes rest)%nat
  end.

End Capture.

(** ** Concrete inputs, for the statements that are about one run *)

Module Samples.

Import Client Render ImageWait Capture.

Definition article_T : Article :=
  {| art_id := "1"; art_title := Some "T"; art_content := Some "Hello";
     art_authorId := num_of_Z 42; art_renderedContent := None |}.

Definition paste_1 : Paste :=
  {| paste_id := "1"; paste_content := Some "Hello";
     paste_authorId := num_of_Z 42; paste_renderedContent := None;
     paste_author := None |}.

(** markdown-it renders the body [Hello] as one paragraph. *)
Definition render_Hello (cfg : MdConfig) (body : string) : string :=
  "<p>Hello</p>" +:+ nl.

(** A run in which the service has the document, a page is there, every
    page call succeeds except [waitForFunction], which times out, and the
    document has one image that errors after 30 ms. *)
Definition env_ok : Env :=
  {| config_endpoint := Some "http://x/";
     config_userAgent := None;
     encodeURIComponent := fun s => s;
     String_of_number := fun _ => "42";
     http_get_article := fun _ _ => Ret (mkStdResponse (num_of_Z 200) "ok" article_T);
     http_get_paste := fun _ _ => Ret (mkStdResponse (num_of_Z 200) "ok" paste_1);
     md_render := render_Hello;
     has_puppeteer := true;
     page_outcome := Ret tt;
     setViewport_outcome := fun _ => Ret tt;
     setContent_outcome := fun _ => Ret tt;
     fonts_outcome := Ret tt;
     document_images := [mkImg false];
     image_events := [(30, 0%nat, OnError)];
     evaluate_fault := None;
     waitForFunction_outcome := fun _ _ => Thrown TimeoutErr;
     screenshot_outcome := Ret "PNG" |}.

(** The same, but loading the content fails. *)
Definition env_load_fails : Env :=
  {| config_endpoint := Some "http://x/";
     config_userAgent := None;
     encodeURIComponent := fun s => s;
     String_of_number := fun _ => "42";
     http_get_article := fun _ _ => Ret (mkStdResponse (num_of_Z 200) "ok" article_T);
     http_get_paste := fun _ _ => Ret (mkStdResponse (num_of_Z 200) "ok" paste_1);
     md_render := render_Hello;
     has_puppeteer := true;
     page_outcome := Ret tt;
     setViewport_outcome := fun _ => Ret tt;
     setContent_outcome := fun _ => Thrown (PageErr "navigation");
     fonts_outcome := Ret tt;
     document_images := [];
     image_events := [];
     evaluate_fault := None;
     waitForFunction_outcome := fun _ _ => Thrown TimeoutErr;
     screenshot_outcome := Ret "PNG" |}.

End Samples.

(** ** The text commands of [apply]

    The three commands that answer with text and never touch the browser.
    Each is a function from its arguments to what it writes to the console
    and the outcome of its action. *)

Module TextCommands.

Import Client.

(** [typeof v === 'object' && 'status' in v], for a [v] that is neither
    [null] nor [undefined]: an array has no [status]. *)
Definition has_status (v : JsVal) : bool :=
  match v with
  | VObj fields => existsb (fun kv => String.eqb (fst kv) "status") fields
  | _ => false
  end.

(** [v.status] *)
Definition status_of (v : JsVal) : JsVal :=
  match v with
  | VObj fields => own_property fields "status"
  | _ => VUndefined
  end.

Section commands.

Variable endpoint userAgent : string.
Variable encodeURIComponent : string -> string.
Variable String_of_number : JsNum -> string.
Variable http_get_article : string -> Headers -> Res (StdResponse Article).
Variable http_get_task : string -> Headers -> Res (StdResponse JsVal).
Variable http_post_task :
  string -> TaskCreate -> Headers -> Res (StdResponse TaskCreateResponse).

(** The text a template literal gives for a title that is [null] or
    [undefined]. *)
Variable absent_text : string.

(** [statusToString] of [./task], and [JSON.stringify]. *)
Variable statusToString : JsVal -> string.
Variable JSON_stringify : JsVal -> string.

(** The action of [获取文章信息]: the console gets the article (or [null])
    before the action looks at it. *)
Definition info_command (id : option string)
  : list (option Article) * Res string :=
  if Capture.arg_missing id then ([], Ret "请提供文章 ID")
  else
    match getArticle endpoint userAgent encodeURIComponent http_get_article
            (default EmptyString id) None with
    | Thrown e => ([], Thrown e)
    | Ret None => ([None], Ret "未找到文章")
    | Ret (Some art) =>
        ([Some art],
         Ret (default absent_text (art_title art) +:+ " by "
              +:+ String_of_number (art_authorId art)))
    end.

(** The action of [创建保存任务], whose two arguments are sent as they are. *)
Definition create_command (target targetId : string) : Res string :=
  let body := TaskSave target targetId None in
  match createTask endpoint userAgent http_post_task body None with
  | Thrown e => Thrown e
  | Ret id =>
      match id with
      | Some s =>
          if str_truthy s then Ret ("保存任务已创建，ID: " +:+ s)
          else Ret "创建失败"
      | None => Ret "创建失败"
      end
  end.

(** The action of [查询任务状态]. *)
Definition task_command (id : option string) : Res string :=
  if Capture.arg_missing id then Ret "请提供任务 ID"
  else
    match getTask endpoint userAgent encodeURIComponent http_get_task
            (default EmptyString id) None with
    | Thrown e => Thrown e
    | Ret task =>
        if nullish task then Ret "任务不存在或返回为空"
        else if has_status task then
          Ret ("任务 " +:+ default EmptyString id +:+ " 状态: "
               +:+ statusToString (status_of task))
        else Ret (JSON_stringify task)
    end.

End commands.

End TextCommands.

(** ** Vocabulary for further statements about the commands *)

Module Protocol.

Import ImageWait Capture.

(** The [try] statement of a command. *)
Definition session_of (cmd : Command) (env : Env) (html : string)
    (options_width : option JsNum) : M Reply :=
  match cmd with
  | ArticleCmd => article_session env html options_width
  | PasteCmd => paste_session env html options_width
  end.

(** What a command answers when its [try] statement fails. *)
Definition failure_text (cmd : Command) : string :=
  match cmd with
  | ArticleCmd => "获取失败"
  | PasteCmd => "获取失败。"
  end.

(** The place of each call in the order the commands make them. *)
Definition phase (ev : Event) : nat :=
  match ev with
  | EvPage => 0
  | EvSetViewport _ => 1
  | EvSetContent _ _ => 2
  | EvFontsReady => 3
  | EvWaitForFunction _ _ => 3
  | EvWarn _ => 4
  | EvImageWait _ => 5
  | EvScreenshot _ _ => 6
  | EvError _ => 7
  | EvClose => 8
  end.

(** Strictly increasing. *)
Fixpoint ascending (l : list nat) : bool :=
  match l with
  | [] => true
  | a :: rest =>
      match rest with
      | [] => true
      | b :: _ => Nat.ltb a b && ascending rest
      end
  end.

Definition is_error (ev : Event) : bool :=
  match ev with
  | EvError _ => true
  | _ => false
  end.

Definition is_warn (ev : Event) : bool :=
  match ev with
  | EvWarn _ => true
  | _ => false
  end.

Definition is_screenshot (ev : Event) : bool :=
  match ev with
  | EvScreenshot _ _ => true
  | _ => false
  end.

Definition is_image_wait (ev : Event) : bool :=
  match ev with
  | EvImageWait _ => true
  | _ => false
  end.

Definition is_clear (op : PageOp) : bool :=
  match op with
  | OpClearTimeout => true
  | _ => false
  end.

(** The awaited call was fulfilled. *)
Definition succeeded {A : Type} (r : Res A) : bool :=
  match r with
  | Ret _ => true
  | Thrown _ => false
  end.

(** What the [try] statement of a command answers, from the outcomes of
    the three calls outside a [try] of their own. *)
Definition reply_of (cmd : Command) (env : Env) (html : string)
    (options_width : option JsNum) : Reply :=
  match setViewport_outcome env (viewport_of options_width),
        setContent_outcome env html,
        screenshot_outcome env with
  | Ret _, Ret _, Ret buffer => Image buffer "image/png"
  | _, _, _ => Text (failure_text cmd)
  end.

(** [s.endsWith(suffix)] *)
Fixpoint ends_with (suffix s : string) : bool :=
  String.eqb suffix s ||
  match s with
  | EmptyString => false
  | String _ rest => ends_with suffix rest
  end.

End Protocol.

(** ** Vocabulary for the race of the image wait and for escaping *)

Module RaceVocabulary.

Import ImageWait Render.

(** The events are in the order of their times. *)
Definition chronological (events : list ImgEvent) : Prop :=
  StronglySorted (fun a b => fst (fst a) <= fst (fst b)) events.

(** No image fires more than once. *)
Definition fires_once (events : list ImgEvent) : Prop :=
  List.NoDup (map (fun ev => snd (fst ev)) events).

(** The same events with every type changed by [f], say every [load]
    turned into an [error]. *)
Definition retype (f : EventType -> EventType) (events : list ImgEvent)
  : list ImgEvent :=
  map (fun ev => (fst (fst ev), snd (fst ev), f (snd ev))) events.

(** Reading an escaped text back: each of the four entities gives its
    character, every other character itself.  [skip] counts the characters
    of an entity still to pass over. *)
Fixpoint decode (skip : nat) (s : string) : string :=
  match s with
  | EmptyString => EmptyString
  | String c rest =>
      match skip with
      | S k => decode k rest
      | O =>
          if Ascii.eqb c "&"%char then
            if String.prefix "amp;" rest then String "&"%char (decode 4 rest)
            else if String.prefix "lt;" rest then String "<"%char (decode 3 rest)
            else if String.prefix "gt;" rest then String ">"%char (decode 3 rest)
            else if String.prefix "quot;" rest
                 then String "034"%char (decode 5 rest)
                 else String c (decode 0 rest)
          else String c (decode 0 rest)
      end
  end.

Definition unescapeHtml (s : string) : string := decode 0 s.

End RaceVocabulary.

(** ** More concrete inputs *)

Module MoreSamples.

Import Client Render ImageWait Capture.

(** An article whose [content] is [null] and whose rendered content is
    there. *)
Definition article_rendered_only : Article :=
  {| art_id := "2"; art_title := None; art_content := None;
     art_authorId := num_of_Z 42; art_renderedContent := Some "<p>Old</p>" |}.

(** The service has no such document, no browser service is there, and a
    page would not be given. *)
Definition env_nothing : Env :=
  {| config_endpoint := None;
     config_userAgent := Some EmptyString;
     encodeURIComponent := fun s => s;
     String_of_number := fun _ => "42";
     http_get_article :=
       fun _ _ => Ret (mkStdResponse (num_of_Z 200) "ok" article_rendered_only);
     http_get_paste :=
       fun _ _ => Ret (mkStdResponse (num_of_Z 404) "not found" Samples.paste_1);
     md_render := fun _ body => body;
     has_puppeteer := false;
     page_outcome := Thrown (PageErr "browser closed");
     setViewport_outcome := fun _ => Ret tt;
     setContent_outcome := fun _ => Ret tt;
     fonts_outcome := Thrown TimeoutErr;
     document_images := [];
     image_events := [];
     evaluate_fault := None;
     waitForFunction_outcome := fun _ _ => Thrown TimeoutErr;
     screenshot_outcome := Ret "PNG" |}.

(** The article is there and so is a page, and every page call succeeds. *)
Definition env_rendered_only : Env :=
  {| config_endpoint := None;
     config_userAgent := None;
     encodeURIComponent := fun s => s;
     String_of_number := fun _ => "42";
     http_get_article :=
       fun _ _ => Ret (mkStdResponse (num_of_Z 200) "ok" article_rendered_only);
     http_get_paste :=
       fun _ _ => Ret (mkStdResponse (num_of_Z 404) "not found" Samples.paste_1);
     md_render := fun _ body => body;
     has_puppeteer := true;
     page_outcome := Ret tt;
     setViewport_outcome := fun _ => Ret tt;
     setContent_outcome := fun _ => Ret tt;
     fonts_outcome := Ret tt;
     document_images := [];
     image_events := [];
     evaluate_fault := None;
     waitForFunction_outcome := fun _ _ => Ret tt;
     screenshot_outcome := Ret "PNG" |}.

End MoreSamples.

(** * Properties of the client *)

Module ClientFacts.

Import Client.

Lemma strip_trailing_slash_cons (c : ascii) (s : string) :
  s ≠ EmptyString → strip_trailing_slash (String c s) = String c (strip_trailing_slash s).
Proof. intros Hs. destruct s; [by destruct Hs | reflexivity]. Qed.

Lemma app_nonempty (s t : string) : t ≠ EmptyString → s +:+ t ≠ EmptyString.
Proof. intros Ht. destruct s; [exact Ht | discriminate]. Qed.

Lemma strip_trailing_slash_snoc (s : string) :
  strip_trailing_slash (s +:+ "/") = s.
Proof.
  induction s as [|c s IH]; [reflexivity|].
  change (String c s +:+ "/") with (String c (s +:+ "/")).
  rewrite strip_trailing_slash_cons, IH; [reflexivity|].
  apply app_nonempty; discriminate.
Qed.

Lemma strip_trailing_slash_other (s : string) (c : ascii) :
  c ≠ "/"%char →
  strip_trailing_slash (s +:+ String c EmptyString) = s +:+ String c EmptyString.
Proof.
  intros Hc. induction s as [|d s IH].
  - change (strip_trailing_slash (String c EmptyString) = String c EmptyString).
    unfold strip_trailing_slash.
    destruct (Ascii.eqb c "/"%char) eqn:E; [|reflexivity].
    apply Ascii.eqb_eq in E. contradiction.
  - change (String d s +:+ String c EmptyString)
      with (String d (s +:+ String c EmptyString)).
    rewrite strip_trailing_slash_cons, IH; [reflexivity|].
    apply app_nonempty; discriminate.
Qed.

Lemma buildUrl_meets_spec (endpoint path : string) :
  buildUrl endpoint path = buildUrl_spec endpoint path.
Proof.
  unfold buildUrl, buildUrl_spec.
  destruct (strip_trailing_slash endpoint) as [|b base]; [reflexivity|].
  cbn [str_truthy negb].
  destruct path as [|p path]; [reflexivity|].
  cbn [starts_with_slash drop_leading_slash].
  destruct (Ascii.eqb_spec p "/"%char) as [->|_]; [|reflexivity].
  reflexivity.
Qed.

(** C7. [buildUrl] trims one trailing slash from the endpoint and puts one
    slash between the trimmed endpoint and the path (the slash the path
    starts with, or a new one); an empty endpoint gives the path as it is;
    the three examples of the spec evaluate as stated.  The earlier
    revision of the function returns the same URL. *)
Theorem buildUrl_normalizes (endpoint path : string) :
  buildUrl endpoint path = buildUrl_spec endpoint path
  ∧ strip_trailing_slash (endpoint +:+ "/") = endpoint
  ∧ (∀ c, c ≠ "/"%char →
       strip_trailing_slash (endpoint +:+ String c EmptyString)
       = endpoint +:+ String c EmptyString)
  ∧ buildUrl EmptyString path = path
  ∧ snd (buildUrl_logging endpoint path) = buildUrl endpoint path
  ∧ buildUrl "http://x/" "/a/b" = "http://x/a/b"
  ∧ buildUrl EmptyString "/a/b" = "/a/b"
  ∧ buildUrl "http://x" "a/b" = "http://x/a/b".
Proof.
  repeat split; try reflexivity.
  - apply buildUrl_meets_spec.
  - apply strip_trailing_slash_snoc.
  - apply strip_trailing_slash_other.
  - unfold buildUrl_logging, buildUrl.
    destruct (negb _); [reflexivity|]. destruct (starts_with_slash _); reflexivity.
Qed.

Lemma buildUrl_normalizes_witness :
  strip_trailing_slash ("http://x" +:+ String "b"%char EmptyString) = "http://xb".
Proof.
  apply (proj1 (proj2 (proj2 (buildUrl_normalizes "http://x" "/a/b"))) "b"%char).
  discriminate.
Defined.

(** The configured User-Agent is sent unless the caller's extra headers
    name their own. *)
Lemma headers_user_agent (userAgent : string) (extra : option Headers) :
  headers userAgent extra !! "User-Agent"
  = Some (default userAgent (extra ≫= (.!! "User-Agent"))).
Proof.
  unfold headers. destruct extra as [m|]; cbn.
  - rewrite lookup_union. destruct (m !! "User-Agent") eqn:E; rewrite ?E; cbn.
    + by rewrite lookup_singleton_eq.
    + by rewrite lookup_singleton_eq.
  - by rewrite lookup_union, lookup_empty, lookup_singleton_eq.
Qed.

Section client_facts.

Variable endpoint userAgent : string.
Variable encodeURIComponent : string → string.
Variable String_of_number : JsNum → string.
Variable form_urlencode : string → string.
Variable http_get_article : string → Headers → Res (StdResponse Article).
Variable http_get_paste : string → Headers → Res (StdResponse Paste).
Variable http_get_task : string → Headers → Res (StdResponse JsVal).
Variable http_post_task :
  string → TaskCreate → Headers → Res (StdResponse TaskCreateResponse).

(** C6. When the envelope the remote service answers with has a [code]
    other than 200, [getArticle], [getPaste], [getTask] and [createTask]
    return [null]: they neither throw nor return the envelope's data.  When
    the HTTP call itself is rejected, the rejection is what the operation
    throws. *)
Theorem non_200_code_is_null :
  (∀ id extra res,
      http_get_article
        (buildUrl endpoint ("/article/query/" +:+ encodeURIComponent id))
        (headers userAgent extra) = Ret res →
      num_strict_eq (code res) (num_of_Z 200) = false →
      getArticle endpoint userAgent encodeURIComponent http_get_article id extra
      = Ret None)
  ∧ (∀ id extra res,
      http_get_paste
        (buildUrl endpoint ("/paste/query/" +:+ encodeURIComponent id))
        (headers userAgent extra) = Ret res →
      num_strict_eq (code res) (num_of_Z 200) = false →
      getPaste endpoint userAgent encodeURIComponent http_get_paste id extra
      = Ret None)
  ∧ (∀ id extra res,
      http_get_task
        (buildUrl endpoint ("/task/query/" +:+ encodeURIComponent id))
        (headers userAgent extra) = Ret res →
      num_strict_eq (code res) (num_of_Z 200) = false →
      getTask endpoint userAgent encodeURIComponent http_get_task id extra
      = Ret VNull)
  ∧ (∀ body extra res,
      http_post_task (buildUrl endpoint "/task/create") body
        (headers userAgent extra) = Ret res →
      num_strict_eq (code res) (num_of_Z 200) = false →
      createTask endpoint userAgent http_post_task body extra = Ret None)
  ∧ (∀ id extra e,
      http_get_article
        (buildUrl endpoint ("/article/query/" +:+ encodeURIComponent id))
        (headers userAgent extra) = Thrown e →
      getArticle endpoint userAgent encodeURIComponent http_get_article id extra
      = Thrown e)
  ∧ (∀ id extra e,
      http_get_paste
        (buildUrl endpoint ("/paste/query/" +:+ encodeURIComponent id))
        (headers userAgent extra) = Thrown e →
      getPaste endpoint userAgent encodeURIComponent http_get_paste id extra
      = Thrown e)
  ∧ (∀ id extra e,
      http_get_task
        (buildUrl endpoint ("/task/query/" +:+ encodeURIComponent id))
        (headers userAgent extra) = Thrown e →
      getTask endpoint userAgent encodeURIComponent http_get_task id extra
      = Thrown e)
  ∧ (∀ body extra e,
      http_post_task (buildUrl endpoint "/task/create") body
        (headers userAgent extra) = Thrown e →
      createTask endpoint userAgent http_post_task body extra = Thrown e).
Proof.
  unfold getArticle, getPaste, getTask, createTask.
  repeat split; intros;
    repeat match goal with
           | H : _ = Ret _ |- _ => rewrite H; clear H
           | H : _ = Thrown _ |- _ => rewrite H; clear H
           | H : num_strict_eq _ _ = false |- _ => rewrite H; clear H
           end; reflexivity.
Qed.

(** C8, on the code as it is.  Whatever success envelope
    [{code: 200, message, data}] with a list as [data] the transport gives
    them, [getRecent], [getRelevant] and [getHistory] return [null] and not
    the list: they read [data] twice, and a list has no [data]. *)
Theorem list_operations_lose_the_list
    (msg : string) (records : list JsVal)
    (opts : option RecentOpts) (id : string) (extra : option Headers) :
  let transport := λ (_ : string) (_ : Headers),
                     Ret (envelope (num_of_Z 200) msg (VArr records)) in
  getRecent endpoint userAgent String_of_number form_urlencode transport opts extra
  = Ret VNull
  ∧ getRelevant endpoint userAgent encodeURIComponent transport id extra = Ret VNull
  ∧ getHistory endpoint userAgent encodeURIComponent transport id extra = Ret VNull.
Proof. repeat split. Qed.

End client_facts.

Lemma non_200_code_is_null_witness :
  getArticle "http://x/" "Uptime-Kuma" (fun s => s)
    (fun _ _ => Ret (mkStdResponse (num_of_Z 404) "not found" Samples.article_T))
    "1" None = Ret None
  ∧ getArticle "http://x/" "Uptime-Kuma" (fun s => s)
      (fun _ _ => Thrown (TransportErr "connection refused"))
      "1" None = Thrown (TransportErr "connection refused").
Proof.
  split.
  - apply (proj1 (non_200_code_is_null "http://x/" "Uptime-Kuma" (fun s => s)
                    (fun _ _ => Ret (mkStdResponse (num_of_Z 404) "not found"
                                       Samples.article_T))
                    (fun _ _ => Thrown TimeoutErr) (fun _ _ => Thrown TimeoutErr)
                    (fun _ _ _ => Thrown TimeoutErr))
             "1" None (mkStdResponse (num_of_Z 404) "not found" Samples.article_T));
      reflexivity.
  - apply (proj1 (proj2 (proj2 (proj2 (proj2
             (non_200_code_is_null "http://x/" "Uptime-Kuma" (fun s => s)
                (fun _ _ => Thrown (TransportErr "connection refused"))
                (fun _ _ => Thrown TimeoutErr) (fun _ _ => Thrown TimeoutErr)
                (fun _ _ _ => Thrown TimeoutErr)))))) "1" None).
    reflexivity.
Defined.

End ClientFacts.

(** * Properties of the markup renderer *)

Module RenderFacts.

Import Render.

Lemma markup_free_app (s t : string) :
  markup_free (s +:+ t) = markup_free s && markup_free t.
Proof.
  induction s as [|c s IH]; [reflexivity|].
  change (String c s +:+ t) with (String c (s +:+ t)).
  cbn [markup_free]. rewrite IH.
  destruct (negb (Ascii.eqb c "<"%char) && negb (Ascii.eqb c ">"%char)
            && negb (Ascii.eqb c "034"%char)); reflexivity.
Qed.

Lemma markup_free_escape_char (c : ascii) : markup_free (escape_char c) = true.
Proof.
  unfold escape_char.
  destruct (Ascii.eqb c "&"%char); [reflexivity|].
  destruct (Ascii.eqb c "<"%char) eqn:Hlt; [reflexivity|].
  destruct (Ascii.eqb c ">"%char) eqn:Hgt; [reflexivity|].
  destruct (Ascii.eqb c "034"%char) eqn:Hdq; [reflexivity|].
  cbn [markup_free]. rewrite Hlt, Hgt, Hdq. reflexivity.
Qed.

Lemma markup_free_escapeHtml (s : string) : markup_free (escapeHtml s) = true.
Proof.
  induction s as [|c s IH]; [reflexivity|].
  cbn [escapeHtml]. rewrite markup_free_app, markup_free_escape_char, IH.
  reflexivity.
Qed.

(** A character that is not one of the four is kept as it is. *)
Lemma escape_char_other (c : ascii) :
  c ≠ "&"%char → c ≠ "<"%char → c ≠ ">"%char → c ≠ "034"%char →
  escape_char c = String c EmptyString.
Proof.
  intros Ha Hl Hg Hq. unfold escape_char.
  rewrite (proj2 (Ascii.eqb_neq _ _) Ha), (proj2 (Ascii.eqb_neq _ _) Hl),
    (proj2 (Ascii.eqb_neq _ _) Hg), (proj2 (Ascii.eqb_neq _ _) Hq).
  reflexivity.
Qed.

Lemma prefix_app (x s : string) : String.prefix x (x +:+ s) = true.
Proof.
  induction x as [|c x IH]; [destruct s; reflexivity|].
  change (String c x +:+ s) with (String c (x +:+ s)).
  cbn [String.prefix]. destruct (ascii_dec c c); [exact IH | congruence].
Qed.

Lemma includes_here (x s : string) : includes x (x +:+ s) = true.
Proof.
  destruct (x +:+ s) eqn:E; cbn [includes]; rewrite <- E, prefix_app; reflexivity.
Qed.

Lemma includes_later (x a s : string) :
  includes x s = true → includes x (a +:+ s) = true.
Proof.
  intros H. induction a as [|c a IH]; [exact H|].
  change (String c a +:+ s) with (String c (a +:+ s)).
  cbn [includes]. rewrite IH. apply orb_true_r.
Qed.

End RenderFacts.

(** * Properties of the in-page image wait *)

Module ImageWaitFacts.

Import ImageWait.

(** With no timer and no listener the events change nothing. *)
Lemma event_loop_idle (cmd : Command) (n : nat) (events : list ImgEvent)
    (st : PState) :
  timer st = None → registry st = [] → event_loop cmd n events st = st.
Proof.
  intros Ht Hreg. induction events as [|ev rest IH].
  - cbn. unfold fire_timer. by rewrite Ht.
  - cbn [event_loop]. unfold timer_due, dispatch. rewrite Ht, Hreg. exact IH.
Qed.

(** C2. With no image in the document the executor of either command
    calls [resolve] at once and nothing else: no timer is set and no
    listener is registered, the promise is fulfilled at time 0, and later
    events change nothing. *)
Theorem no_images_resolves_at_once (cmd : Command) (events : list ImgEvent) :
  ops (executor cmd []) = [OpResolve]
  ∧ resolved (executor cmd []) = Some 0
  ∧ timer (executor cmd []) = None
  ∧ registry (executor cmd []) = []
  ∧ image_wait cmd [] events = executor cmd [].
Proof.
  repeat split; try (destruct cmd; reflexivity).
  unfold image_wait. apply event_loop_idle; destruct cmd; reflexivity.
Qed.

(** *** The ceiling *)

Lemma forEach_img_timer (todo : list Img) (i : nat) (st : PState) :
  timer (forEach_img i todo st) = timer st.
Proof.
  revert i st. induction todo as [|img rest IH]; intros i st; [reflexivity|].
  cbn [forEach_img]. rewrite IH. destruct (complete img); reflexivity.
Qed.

Lemma forEach_img_resolved (todo : list Img) (i : nat) (st : PState) :
  resolved (forEach_img i todo st) = resolved st.
Proof.
  revert i st. induction todo as [|img rest IH]; intros i st; [reflexivity|].
  cbn [forEach_img]. rewrite IH. destruct (complete img); reflexivity.
Qed.

Lemma executor_bounded (cmd : Command) (imgs : list Img) :
  imgs ≠ [] → bounded (executor cmd imgs).
Proof.
  intros Hne. destruct imgs as [|img imgs]; [by destruct Hne|].
  destruct cmd; unfold executor, article_executor, paste_executor;
    cbn [length Nat.eqb].
  - remember (forEach_img 0 (img :: imgs) (setTimeout 0 5000 initial)) as st eqn:Est.
    assert (Ht : timer st = Some 5000) by (subst st; rewrite forEach_img_timer; reflexivity).
    assert (Hr : resolved st = None) by (subst st; rewrite forEach_img_resolved; reflexivity).
    clear Est.
    destruct (Nat.eqb (loaded st) _).
    + left. exists 0. cbn. rewrite Hr. split; [reflexivity | lia].
    + right. split; assumption.
  - remember (forEach_img 0 (img :: imgs) initial) as st eqn:Est.
    assert (Hr : resolved st = None) by (subst st; rewrite forEach_img_resolved; reflexivity).
    clear Est.
    destruct (Nat.eqb (loaded st) _).
    + left. exists 0. cbn. rewrite Hr. split; [reflexivity | lia].
    + right. split; [exact Hr | reflexivity].
Qed.

Lemma handler_settled (cmd : Command) (n : nat) (now t : Z) (st : PState) :
  resolved st = Some t → resolved (handler cmd n now st) = Some t.
Proof.
  intros Hr. unfold handler.
  destruct (Nat.eqb _ n); [destruct cmd|]; cbn; rewrite ?Hr; reflexivity.
Qed.

Lemma handler_bounded (cmd : Command) (n : nat) (now : Z) (st : PState) :
  bounded st → (armed st → now ≤ 5000) → bounded (handler cmd n now st).
Proof.
  intros [[t [Hr Ht]] | [Hr Htm]] Hnow.
  - left. exists t. split; [by apply handler_settled | exact Ht].
  - specialize (Hnow (conj Hr Htm)). unfold handler.
    destruct (Nat.eqb _ n); [destruct cmd|].
    + left. exists now. cbn. rewrite Hr. split; [reflexivity | exact Hnow].
    + left. exists now. cbn. rewrite Hr. split; [reflexivity | exact Hnow].
    + right. split; assumption.
Qed.

Lemma handler_armed_inv (cmd : Command) (n : nat) (now : Z) (st : PState) :
  armed (handler cmd n now st) → armed st.
Proof.
  unfold handler, armed.
  destruct (Nat.eqb _ n); [destruct cmd|]; cbn; destruct (resolved st);
    intros [Hr Ht]; try discriminate; split; assumption.
Qed.

Lemma calls_bounded (cmd : Command) (n : nat) (now : Z)
    (l : list (nat * EventType)) (st : PState) :
  bounded st → (armed st → now ≤ 5000) →
  bounded (call_handlers cmd n now l st).
Proof.
  revert st. induction l as [|x l IH]; intros st Hb Hnow; [exact Hb|].
  unfold call_handlers in *. cbn [fold_left]. apply IH.
  - by apply handler_bounded.
  - intros Ha. apply Hnow. by apply handler_armed_inv in Ha.
Qed.

Lemma fire_timer_settled (st : PState) :
  bounded st → settled_by 5000 (fire_timer st).
Proof.
  intros [[t [Hr Ht]] | [Hr Htm]]; unfold fire_timer.
  - exists t. destruct (timer st); cbn; rewrite ?Hr; split; done.
  - rewrite Htm. exists 5000. cbn. rewrite Hr. split; [reflexivity | lia].
Qed.

Lemma event_loop_bounded (cmd : Command) (n : nat) (events : list ImgEvent)
    (st : PState) :
  bounded st → settled_by 5000 (event_loop cmd n events st).
Proof.
  revert st. induction events as [|ev rest IH]; intros st Hb.
  - by apply fire_timer_settled.
  - cbn [event_loop]. apply IH. unfold dispatch.
    destruct (timer_due (fst (fst ev)) st) eqn:Hdue.
    + apply calls_bounded; [left; by apply fire_timer_settled|].
      intros [Hr _]. destruct (fire_timer_settled st Hb) as [t [Hr' _]].
      congruence.
    + apply calls_bounded; [exact Hb|].
      intros [_ Htm]. unfold timer_due in Hdue. rewrite Htm in Hdue. lia.
Qed.

(** *** Completion by the images *)

Lemma forEach_img_registry (todo : list Img) (i : nat) (st : PState) :
  registry (forEach_img i todo st)
  = (registry st ++ entries (pending_from i todo))%list.
Proof.
  revert i st. induction todo as [|img rest IH]; intros i st.
  - cbn. by rewrite app_nil_r.
  - cbn [forEach_img pending_from]. rewrite IH. destruct (complete img); [reflexivity|].
    cbn. by rewrite <- !app_assoc.
Qed.

Lemma forEach_img_loaded (todo : list Img) (i : nat) (st : PState) :
  (loaded (forEach_img i todo st) + length (pending_from i todo)
   = loaded st + length todo)%nat.
Proof.
  revert i st. induction todo as [|img rest IH]; intros i st.
  - cbn. lia.
  - cbn [forEach_img pending_from]. destruct (complete img).
    + rewrite IH. cbn. lia.
    + cbn [length]. specialize (IH (S i) (addEventListener i OnError (addEventListener i OnLoad st))).
      cbn in IH. lia.
Qed.

Lemma pending_from_lookup (todo : list Img) (i j : nat) :
  In j (pending_from i todo) →
  (i ≤ j)%nat ∧ ∃ img, todo !! (j - i)%nat = Some img ∧ complete img = false.
Proof.
  revert i. induction todo as [|img rest IH]; intros i Hin; [destruct Hin|].
  cbn [pending_from] in Hin. destruct (complete img) eqn:Hc.
  - destruct (IH _ Hin) as [Hle [x [Hx Hcx]]]. split; [lia|].
    exists x. split; [|exact Hcx].
    replace (j - i)%nat with (S (j - S i)) by lia. exact Hx.
  - destruct Hin as [<- | Hin].
    + split; [lia|]. exists img. rewrite Nat.sub_diag. by split.
    + destruct (IH _ Hin) as [Hle [x [Hx Hcx]]]. split; [lia|].
      exists x. split; [|exact Hcx].
      replace (j - i)%nat with (S (j - S i)) by lia. exact Hx.
Qed.

Lemma calls_of_event (ev : ImgEvent) (P : list nat) :
  length (List.filter (listens ev) (entries P)) = count_in (snd (fst ev)) P.
Proof.
  destruct ev as [[t i] k]. induction P as [|j P IH]; [reflexivity|].
  change (entries (j :: P)) with ([(j, OnLoad); (j, OnError)] ++ entries P)%list.
  rewrite List.filter_app, length_app, IH. cbn [count_in].
  f_equal. unfold listens. cbn [fst snd List.filter].
  destruct (Nat.eqb j i), k; reflexivity.
Qed.

Lemma count_in_pos (j : nat) (P : list nat) : In j P → (1 ≤ count_in j P)%nat.
Proof.
  induction P as [|k P IH]; [intros []|]. intros [-> | Hin]; cbn [count_in].
  - rewrite Nat.eqb_refl. lia.
  - specialize (IH Hin). lia.
Qed.

(** Every image of [P] fires at least once among [events]: there are at
    least as many handler calls as images in [P]. *)
Lemma total_hits_covers (P : list nat) (events : list ImgEvent) :
  (∀ j, In j P → ∃ t k, In (t, j, k) events) →
  (length P ≤ total_hits P events)%nat.
Proof.
  assert (Hcons : ∀ j Q, total_hits (j :: Q) events
            = (count_in j (map (fun ev => snd (fst ev)) events) + total_hits Q events)%nat).
  { intros j Q. induction events as [|ev rest IH]; [reflexivity|].
    cbn [total_hits count_in map]. rewrite IH.
    rewrite (Nat.eqb_sym j). lia. }
  induction P as [|j P IH]; intros Hcov; [cbn; lia|].
  rewrite Hcons. cbn [length].
  assert (1 ≤ count_in j (map (fun ev => snd (fst ev)) events))%nat.
  { apply count_in_pos. destruct (Hcov j (or_introl eq_refl)) as [t [k Hin]].
    apply (in_map (fun ev => snd (fst ev))) in Hin. exact Hin. }
  assert (length P ≤ total_hits P events)%nat.
  { apply IH. intros j' Hj'. apply Hcov. by right. }
  lia.
Qed.

Section calls.

Variables (cmd : Command) (n : nat) (now : Z).

Lemma handler_registry (st : PState) :
  registry (handler cmd n now st) = registry st.
Proof. unfold handler. destruct (Nat.eqb _ n); [destruct cmd|]; reflexivity. Qed.

Lemma handler_timer_ok (st : PState) :
  timer_ok st → timer_ok (handler cmd n now st).
Proof.
  unfold handler, timer_ok.
  destruct (Nat.eqb _ n); [destruct cmd|]; cbn; intros H d Hd;
    try discriminate; by apply H.
Qed.

Lemma calls_registry (l : list (nat * EventType)) (st : PState) :
  registry (call_handlers cmd n now l st) = registry st.
Proof.
  revert st. induction l as [|x l IH]; intros st; [reflexivity|].
  unfold call_handlers in *. cbn [fold_left]. rewrite IH. apply handler_registry.
Qed.

Lemma calls_timer_ok (l : list (nat * EventType)) (st : PState) :
  timer_ok st → timer_ok (call_handlers cmd n now l st).
Proof.
  revert st. induction l as [|x l IH]; intros st H; [exact H|].
  unfold call_handlers in *. cbn [fold_left]. apply IH. by apply handler_timer_ok.
Qed.

Lemma calls_settled (l : list (nat * EventType)) (st : PState) (t : Z) :
  resolved st = Some t → resolved (call_handlers cmd n now l st) = Some t.
Proof.
  revert st. induction l as [|x l IH]; intros st H; [exact H|].
  unfold call_handlers in *. cbn [fold_left]. apply IH. by apply handler_settled.
Qed.

(** While the promise is pending and [loaded] is below [n], each call adds
    one to [loaded]; the call that makes it [n] fulfils the promise. *)
Lemma calls_progress (l : list (nat * EventType)) (st : PState) :
  resolved st = None → (loaded st < n)%nat →
  resolved (call_handlers cmd n now l st) = Some now
  ∨ (resolved (call_handlers cmd n now l st) = None
     ∧ loaded (call_handlers cmd n now l st) = (loaded st + length l)%nat
     ∧ (loaded (call_handlers cmd n now l st) < n)%nat).
Proof.
  revert st. induction l as [|x l IH]; intros st Hr Hlt.
  - right. cbn. repeat split; [exact Hr | lia | exact Hlt].
  - unfold call_handlers in *. cbn [fold_left length].
    assert (Hl : loaded (handler cmd n now st) = S (loaded st)).
    { unfold handler. destruct (Nat.eqb _ n); [destruct cmd|]; reflexivity. }
    destruct (Nat.eqb_spec (S (loaded st)) n) as [Heq | Hne].
    + left. apply calls_settled. unfold handler. cbn [incr_loaded loaded].
      rewrite (proj2 (Nat.eqb_eq _ _) Heq). destruct cmd; cbn; by rewrite Hr.
    + assert (Hr' : resolved (handler cmd n now st) = None).
      { unfold handler. cbn [incr_loaded loaded].
        rewrite (proj2 (Nat.eqb_neq _ _) Hne). exact Hr. }
      destruct (IH _ Hr' ltac:(lia)) as [Hs | (Hn & Hld & Hlt')]; [by left|].
      right. repeat split; [exact Hn | lia | exact Hlt'].
Qed.

End calls.

Lemma fire_timer_registry (st : PState) : registry (fire_timer st) = registry st.
Proof. unfold fire_timer. destruct (timer st); reflexivity. Qed.

Lemma fire_timer_timer_ok (st : PState) : timer_ok (fire_timer st).
Proof. unfold fire_timer, timer_ok. destruct (timer st) eqn:E; cbn; congruence. Qed.

Lemma fire_timer_kept (st : PState) (t : Z) :
  resolved st = Some t → resolved (fire_timer st) = Some t.
Proof. intros H. unfold fire_timer. destruct (timer st); cbn; by rewrite ?H. Qed.

Lemma event_loop_completes (cmd : Command) (n : nat) (P : list nat) (T : Z)
    (events : list ImgEvent) (st : PState) :
  T < 5000 →
  (∀ ev, In ev events → fst (fst ev) ≤ T) →
  registry st = entries P → timer_ok st →
  settled_by T st
  ∨ (resolved st = None ∧ (loaded st < n)%nat
     ∧ (n ≤ loaded st + total_hits P events)%nat) →
  settled_by T (event_loop cmd n events st).
Proof.
  intros HT. revert st. induction events as [|ev rest IH]; intros st Hev Hreg Hok Hst.
  - destruct Hst as [[t [Hr Ht]] | (_ & Hlt & Hn)]; [|cbn in Hn; lia].
    exists t. split; [by apply fire_timer_kept | exact Ht].
  - cbn [event_loop].
    assert (Hrest : ∀ ev', In ev' rest → fst (fst ev') ≤ T)
      by (intros ev' H; apply Hev; by right).
    assert (Hnow : fst (fst ev) ≤ T) by (apply Hev; by left).
    destruct Hst as [[t [Hr Ht]] | (Hr & Hlt & Hn)].
    + apply IH; [exact Hrest | | |].
      * unfold dispatch. rewrite calls_registry.
        destruct (timer_due _ st); [by rewrite fire_timer_registry | exact Hreg].
      * unfold dispatch. apply calls_timer_ok.
        destruct (timer_due _ st); [apply fire_timer_timer_ok | exact Hok].
      * left. exists t. split; [|exact Ht]. unfold dispatch. apply calls_settled.
        destruct (timer_due _ st); [by apply fire_timer_kept | exact Hr].
    + assert (Hdue : timer_due (fst (fst ev)) st = false).
      { unfold timer_due. destruct (timer st) as [d|] eqn:E; [|reflexivity].
        rewrite (Hok d E). lia. }
      rewrite Hdue.
      apply IH; [exact Hrest | | |].
      * unfold dispatch. by rewrite calls_registry.
      * unfold dispatch. by apply calls_timer_ok.
      * unfold dispatch.
        destruct (calls_progress cmd n (fst (fst ev))
                    (List.filter (listens ev) (registry st)) st Hr Hlt)
          as [Hs | (Hn' & Hld & Hlt')].
        -- left. exists (fst (fst ev)). by split.
        -- right. repeat split; [exact Hn' | exact Hlt' |].
           rewrite Hld, Hreg, calls_of_event. cbn [total_hits] in Hn. lia.
Qed.

Lemma executor_registry (cmd : Command) (imgs : list Img) :
  imgs ≠ [] → registry (executor cmd imgs) = entries (pending_from 0 imgs).
Proof.
  intros Hne. destruct imgs as [|img imgs]; [by destruct Hne|].
  destruct cmd; unfold executor, article_executor, paste_executor;
    cbn [length Nat.eqb].
  - destruct (Nat.eqb _ _); cbn [registry resolve clearTimeout];
      by rewrite forEach_img_registry.
  - destruct (Nat.eqb _ _); cbn [registry resolve setTimeout];
      by rewrite forEach_img_registry.
Qed.

Lemma executor_timer_ok (cmd : Command) (imgs : list Img) :
  timer_ok (executor cmd imgs).
Proof.
  destruct cmd; unfold executor, article_executor, paste_executor, timer_ok.
  - destruct (Nat.eqb (length imgs) 0); [discriminate|].
    destruct (Nat.eqb _ _); cbn [timer resolve clearTimeout]; [discriminate|].
    rewrite forEach_img_timer. cbn. intros d Hd. injection Hd as <-. reflexivity.
  - destruct (Nat.eqb (length imgs) 0); [discriminate|].
    cbn. intros d Hd. injection Hd as <-. reflexivity.
Qed.

(** After the executor either the promise is fulfilled (every image was
    complete), or it is pending with [loaded] counting the complete images. *)
Lemma executor_counts (cmd : Command) (imgs : list Img) :
  imgs ≠ [] →
  resolved (executor cmd imgs) = Some 0
  ∨ (resolved (executor cmd imgs) = None
     ∧ (loaded (executor cmd imgs) < length imgs)%nat
     ∧ (loaded (executor cmd imgs) + length (pending_from 0 imgs)
        = length imgs)%nat).
Proof.
  intros Hne. destruct imgs as [|img imgs]; [by destruct Hne|].
  destruct cmd; unfold executor, article_executor, paste_executor;
    cbn [length Nat.eqb].
  - pose proof (forEach_img_loaded (img :: imgs) 0 (setTimeout 0 5000 initial)) as Hl.
    pose proof (forEach_img_resolved (img :: imgs) 0 (setTimeout 0 5000 initial)) as Hr.
    cbn [loaded resolved setTimeout initial length] in Hl, Hr.
    destruct (Nat.eqb_spec
                (loaded (forEach_img 0 (img :: imgs) (setTimeout 0 5000 initial)))
                (S (length imgs))) as [Heq | Hne'].
    + left. cbn [resolved resolve clearTimeout setTimeout]. by rewrite Hr.
    + right. repeat split; [exact Hr | lia | lia].
  - pose proof (forEach_img_loaded (img :: imgs) 0 initial) as Hl.
    pose proof (forEach_img_resolved (img :: imgs) 0 initial) as Hr.
    cbn [loaded resolved initial length] in Hl, Hr.
    destruct (Nat.eqb_spec (loaded (forEach_img 0 (img :: imgs) initial))
                (S (length imgs))) as [Heq | Hne'].
    + left. cbn [resolved resolve clearTimeout setTimeout]. by rewrite Hr.
    + right. cbn [resolved loaded setTimeout]. repeat split; [exact Hr | lia | lia].
Qed.

(** The promise of either command is always fulfilled: the wait of
    [page.evaluate] for it ends. *)
Lemma image_wait_settles (cmd : Command) (imgs : list Img) (events : list ImgEvent) :
  ∃ t, resolved (image_wait cmd imgs events) = Some t.
Proof.
  destruct imgs as [|img imgs].
  - exists 0. unfold image_wait.
    rewrite event_loop_idle; destruct cmd; reflexivity.
  - destruct (event_loop_bounded cmd (length (img :: imgs)) events
                (executor cmd (img :: imgs))) as [t [Ht _]];
      [by apply executor_bounded | by exists t].
Qed.

End ImageWaitFacts.

(** * Properties of the render-and-capture commands *)

Module CaptureFacts.

Import Client Render ImageWait Capture.

Ltac unfold_session :=
  cbv beta delta
    [article_session paste_session try_finally try_catch bind ret lift do_emit
     page_setViewport page_setContent page_fonts_ready page_image_wait
     page_waitForFunction page_screenshot page_close logger_warn logger_error
     emit];
  cbn [available log fst snd].

Ltac split_outcomes env :=
  repeat match goal with
         | |- context [setViewport_outcome env ?vp] =>
             destruct (setViewport_outcome env vp)
         | |- context [setContent_outcome env ?h] =>
             destruct (setContent_outcome env h)
         | |- context [fonts_outcome env] => destruct (fonts_outcome env)
         | |- context [evaluate_fault env] => destruct (evaluate_fault env)
         | |- context [resolved (image_wait ?c ?i ?e)] =>
             destruct (resolved (image_wait c i e))
         | |- context [waitForFunction_outcome env ?x ?t] =>
             destruct (waitForFunction_outcome env x t)
         | |- context [screenshot_outcome env] => destruct (screenshot_outcome env)
         end;
  cbn [available log fst snd].

Ltac shape_done :=
  split; [lia|];
  rewrite <- ?app_assoc; cbn [app];
  eexists; split; [reflexivity | repeat split].

(** Every exit of the [try] statement of the article command leaves the
    log as: [setViewport], then calls that neither acquire a page nor set
    the viewport, the last of them the one [close]; and one more surface
    available. *)
Lemma article_session_shape (env : Env) (html : string)
    (options_width : option JsNum) (w : World) :
  let w' := snd (article_session env html options_width w) in
  available w' = available w + 1
  ∧ ∃ evs, log w' = (log w ++ EvSetViewport (viewport_of options_width) :: evs)%list
           ∧ last evs = Some EvClose
           ∧ closes evs = 1%nat
           ∧ forallb later_call evs = true.
Proof.
  unfold_session. fold (viewport_of options_width).
  split_outcomes env; shape_done.
Qed.

Lemma paste_session_shape (env : Env) (html : string)
    (options_width : option JsNum) (w : World) :
  let w' := snd (paste_session env html options_width w) in
  available w' = available w + 1
  ∧ ∃ evs, log w' = (log w ++ EvSetViewport (viewport_of options_width) :: evs)%list
           ∧ last evs = Some EvClose
           ∧ closes evs = 1%nat
           ∧ forallb later_call evs = true
           ∧ existsb is_fonts evs = false.
Proof.
  unfold_session. fold (viewport_of options_width).
  split_outcomes env; shape_done.
Qed.

(** A command either never gets a page and calls nothing, or gets one and
    goes through its [try] statement; either way the number of available
    surfaces is in the end what it was. *)
Lemma command_shape (cmd : Command) (env : Env) (id : option string)
    (options_width : option JsNum) (n : Z) :
  let w' := snd (run_command cmd env id options_width n) in
  available w' = n
  ∧ (log w' = []
     ∨ ∃ evs, log w' = EvPage :: EvSetViewport (viewport_of options_width) :: evs
              ∧ last evs = Some EvClose
              ∧ closes evs = 1%nat
              ∧ forallb later_call evs = true
              ∧ (cmd = PasteCmd → existsb is_fonts evs = false)).
Proof.
  destruct cmd; cbv beta delta [run_command article_command paste_command bind lift ret].
  - destruct (arg_missing id); [by split; [|left]|].
    destruct (getArticle _ _ _ _ _ _) as [[art|]|e]; [|by split; [|left]..].
    cbv beta iota zeta.
    generalize (generateHtml (md_render env) (default EmptyString (art_title art))
                  ("作者 UID: " +:+ String_of_number env (art_authorId art))
                  (default EmptyString
                     (or_else (art_content art) (art_renderedContent art)))).
    intros html. destruct (has_puppeteer env); [|by split; [|left]].
    cbv beta iota delta [negb acquire_page].
    destruct (page_outcome env); [|by split; [|left]].
    cbv beta iota.
    destruct (article_session_shape env html options_width
                (emit EvPage {| available := available (start n) - 1;
                                log := log (start n) |}))
      as [Hav (evs & Hlog & Hlast & Hcl & Hlater)].
    cbn [available log start emit app] in Hav, Hlog |- *.
    split; [lia|]. right. exists evs. repeat split; try assumption. discriminate.
  - destruct (arg_missing id); [by split; [|left]|].
    destruct (getPaste _ _ _ _ _ _) as [[paste|]|e]; [|by split; [|left]..].
    cbv beta iota zeta.
    match goal with
    | |- context [generateHtml ?r ?t ?a ?b] => generalize (generateHtml r t a b)
    end.
    intros html. destruct (has_puppeteer env); [|by split; [|left]].
    cbv beta iota delta [negb acquire_page].
    destruct (page_outcome env); [|by split; [|left]].
    cbv beta iota.
    destruct (paste_session_shape env html options_width
                (emit EvPage {| available := available (start n) - 1;
                                log := log (start n) |}))
      as [Hav (evs & Hlog & Hlast & Hcl & Hlater & Hfonts)].
    cbn [available log start emit app] in Hav, Hlog |- *.
    split; [lia|]. right. exists evs. repeat split; auto.
Qed.

Lemma last_after (a b : Event) (evs : list Event) (x : Event) :
  last evs = Some x → last (a :: b :: evs) = Some x.
Proof. destruct evs; [discriminate | exact id]. Qed.

(** C1. In every run of the article or the paste command that gets a page,
    whatever the page calls after that do (succeed, time out or throw, at
    [setViewport], [setContent], the waits or [screenshot]), [page.close()]
    is called exactly once and is the last call, and the number of
    available surfaces is again what it was before the page was taken. *)
Theorem surface_released_on_every_exit (cmd : Command) (env : Env)
    (id : option string) (options_width : option JsNum) (n : Z) :
  let w' := snd (run_command cmd env id options_width n) in
  In EvPage (log w') →
  available w' = n ∧ closes (log w') = 1%nat ∧ last (log w') = Some EvClose.
Proof.
  intros w' Hpage.
  destruct (command_shape cmd env id options_width n)
    as [Hav [Hnil | (evs & Hlog & Hlast & Hcl & _)]]; fold w' in Hav |- *.
  - fold w' in Hnil. rewrite Hnil in Hpage. destruct Hpage.
  - fold w' in Hlog. rewrite Hlog. repeat split; [exact Hav | exact Hcl |].
    by apply last_after.
Qed.

Lemma surface_released_on_every_exit_witness :
  let w' := snd (run_command ArticleCmd Samples.env_load_fails (Some "1") None 3) in
  available w' = 3 ∧ closes (log w') = 1%nat ∧ last (log w') = Some EvClose.
Proof.
  apply (surface_released_on_every_exit ArticleCmd Samples.env_load_fails
           (Some "1") None 3).
  vm_compute. left. reflexivity.
Defined.

Lemma num_truthy_nonzero (x : JsNum) : num_truthy x = true ↔ nonzero_number x.
Proof.
  destruct x as [| s | q]; cbn; [split; [discriminate | intros []] | done |].
  rewrite negb_true_iff. split.
  - intros H Hq. apply Qeq_bool_iff in Hq. congruence.
  - intros H. destruct (Qeq_bool q 0) eqn:E; [|reflexivity].
    apply Qeq_bool_iff in E. contradiction.
Qed.

(** C10. The viewport either command sets on the page it got has height
    800 and scale factor 2, and its width is [Number(options.width)] when
    that is a number other than zero and NaN, and 960 otherwise: when the
    option is absent, zero or NaN.  A run that gets a page sets this
    viewport, and no run sets another. *)
Theorem viewport_applied (cmd : Command) (env : Env) (id : option string)
    (options_width : option JsNum) (n : Z) :
  let w' := snd (run_command cmd env id options_width n) in
  (In EvPage (log w') → In (EvSetViewport (viewport_of options_width)) (log w'))
  ∧ (∀ vp, In (EvSetViewport vp) (log w') → vp = viewport_of options_width)
  ∧ height (viewport_of options_width) = 800
  ∧ deviceScaleFactor (viewport_of options_width) = 2
  ∧ (nonzero_number (Number options_width) →
     width (viewport_of options_width) = Number options_width)
  ∧ (¬ nonzero_number (Number options_width) →
     width (viewport_of options_width) = num_of_Z 960)
  ∧ width (viewport_of None) = num_of_Z 960
  ∧ width (viewport_of (Some JNaN)) = num_of_Z 960
  ∧ width (viewport_of (Some (num_of_Z 0))) = num_of_Z 960.
Proof.
  intros w'.
  destruct (command_shape cmd env id options_width n)
    as [_ [Hnil | (evs & Hlog & _ & _ & Hlater & _)]];
    [fold w' in Hnil | fold w' in Hlog].
  all: repeat split; try reflexivity.
  - rewrite Hnil. intros [].
  - rewrite Hnil. intros vp [].
  - intros Hnz. apply num_truthy_nonzero in Hnz.
    cbn [width viewport_of]. unfold viewport_width, num_or. by rewrite Hnz.
  - intros Hz. cbn [width viewport_of]. unfold viewport_width, num_or.
    destruct (num_truthy (Number options_width)) eqn:E; [|reflexivity].
    apply num_truthy_nonzero in E. contradiction.
  - rewrite Hlog. intros _. right. by left.
  - rewrite Hlog. intros vp [Hvp | [Hvp | Hvp]]; [discriminate | congruence |].
    rewrite forallb_forall in Hlater. specialize (Hlater _ Hvp). discriminate.
  - intros Hnz. apply num_truthy_nonzero in Hnz.
    cbn [width viewport_of]. unfold viewport_width, num_or. by rewrite Hnz.
  - intros Hz. cbn [width viewport_of]. unfold viewport_width, num_or.
    destruct (num_truthy (Number options_width)) eqn:E; [|reflexivity].
    apply num_truthy_nonzero in E. contradiction.
Qed.

Lemma viewport_applied_witness :
  In (EvSetViewport {| width := num_of_Z 1280; height := 800; deviceScaleFactor := 2 |})
    (log (snd (run_command PasteCmd Samples.env_ok (Some "1")
                 (Some (num_of_Z 1280)) 3)))
  ∧ width (viewport_of (Some (num_of_Z 1280))) = num_of_Z 1280.
Proof.
  pose proof (viewport_applied PasteCmd Samples.env_ok (Some "1")
                (Some (num_of_Z 1280)) 3) as (Hset & _ & _ & _ & Hwidth & _).
  split.
  - apply Hset. vm_compute. left. reflexivity.
  - apply Hwidth. cbn. discriminate.
Defined.

(** C4, on the code as it is.  No run of the paste command waits for
    [document.fonts.ready], whatever its surroundings do; the article
    command does wait for it in the run where every page call succeeds. *)
Theorem paste_command_never_waits_for_fonts (env : Env) (id : option string)
    (options_width : option JsNum) (n : Z) :
  ¬ In EvFontsReady (log (snd (run_command PasteCmd env id options_width n)))
  ∧ In EvFontsReady
      (log (snd (run_command ArticleCmd Samples.env_ok (Some "1") None 1))).
Proof.
  split.
  - destruct (command_shape PasteCmd env id options_width n)
      as [_ [Hnil | (evs & Hlog & _ & _ & _ & Hfonts)]].
    + rewrite Hnil. intros [].
    + rewrite Hlog. intros [Hin | [Hin | Hin]]; [discriminate | discriminate |].
      specialize (Hfonts eq_refl).
      assert (existsb is_fonts evs = true) as Hex
        by (apply existsb_exists; exists EvFontsReady; by split).
      congruence.
  - vm_compute. do 3 right. left. reflexivity.
Qed.

(** C5, on the code as it is.  No part of the template of [generateHtml]
    has [__katex_render_done] or a script in it, and neither has the
    snapshot made for the paste with body [Hello]: nothing in the page sets
    the flag.  The paste command waits for
    [window.__katex_render_done === true] with a 20000 ms timeout all the
    same and, when that wait times out, goes on to the image wait and the
    screenshot. *)
Theorem snapshot_declares_no_completion_flag :
  let html := generateHtml Samples.render_Hello "剪贴板: 1" "创建者 UID: 42" "Hello" in
  forallb (fun part => negb (includes "__katex_render_done" part)
                       && negb (includes "<script" part))
    [page_head; page_after_title; page_after_meta; page_tail] = true
  ∧ includes "__katex_render_done" html = false
  ∧ includes "<script" html = false
  ∧ log (snd (run_command PasteCmd Samples.env_ok (Some "1") None 1))
    = [EvPage;
       EvSetViewport (viewport_of None);
       EvSetContent html "networkidle0";
       EvWaitForFunction "window.__katex_render_done === true" 20000;
       EvImageWait PasteCmd;
       EvScreenshot true "png";
       EvClose].
Proof. vm_compute. repeat split. Qed.

End CaptureFacts.

(** * More about the client *)

Module ClientMore.

Import Client.

(** X1. For a path that starts with a slash, as every path the client
    builds does, the URL is the endpoint without one trailing slash followed
    by the path as it is, whether or not an endpoint is configured. *)
Theorem buildUrl_rooted_path (endpoint path : string) :
  starts_with_slash path = true →
  buildUrl endpoint path = strip_trailing_slash endpoint +:+ path.
Proof.
  intros Hp. unfold buildUrl. rewrite Hp.
  destruct (strip_trailing_slash endpoint); reflexivity.
Qed.

Lemma buildUrl_rooted_path_witness :
  buildUrl "http://x/" "/task/create" = "http://x" +:+ "/task/create".
Proof. apply (buildUrl_rooted_path "http://x/" "/task/create"). reflexivity. Defined.

(** X2. One trailing slash on the endpoint makes no difference: an
    endpoint that does not end in a slash and the same endpoint with a
    slash added give the same URL for every path. *)
Theorem buildUrl_ignores_trailing_slash (endpoint path : string) :
  strip_trailing_slash endpoint = endpoint →
  buildUrl (endpoint +:+ "/") path = buildUrl endpoint path.
Proof.
  intros He. unfold buildUrl.
  rewrite ClientFacts.strip_trailing_slash_snoc, He. reflexivity.
Qed.

Lemma buildUrl_ignores_trailing_slash_witness :
  buildUrl ("http://x" +:+ "/") "a/b" = buildUrl "http://x" "a/b".
Proof. apply (buildUrl_ignores_trailing_slash "http://x" "a/b"). reflexivity. Defined.

(** X3. The headers of a request are the caller's extra headers plus
    [User-Agent]: the configured agent is sent unless the extra headers name
    their own, and every other header is exactly the caller's. *)
Theorem headers_merge (userAgent : string) (extra : option Headers) :
  headers userAgent extra !! "User-Agent"
  = Some (default userAgent (extra ≫= (.!! "User-Agent")))
  ∧ ∀ name, name ≠ "User-Agent" →
      headers userAgent extra !! name = extra ≫= (.!! name).
Proof.
  split; [apply ClientFacts.headers_user_agent|].
  intros name Hne. unfold headers. rewrite lookup_union.
  rewrite lookup_singleton_ne by congruence.
  destruct extra as [m|]; cbn.
  - by destruct (m !! name).
  - by rewrite lookup_empty.
Qed.

Lemma headers_merge_witness :
  headers "Uptime-Kuma" (Some {[ "Accept" := "application/json" ]}) !! "Accept"
  = Some ({[ "Accept" := "application/json" ]} : Headers) ≫= (.!! "Accept").
Proof.
  apply (proj2 (headers_merge "Uptime-Kuma"
                  (Some {[ "Accept" := "application/json" ]})) "Accept").
  discriminate.
Defined.

Lemma str_truthy_app_r (s t : string) :
  str_truthy t = true → str_truthy (s +:+ t) = true.
Proof. intros Ht. destruct s; [exact Ht | reflexivity]. Qed.

Lemma str_truthy_app_l (s t : string) :
  str_truthy s = true → str_truthy (s +:+ t) = true.
Proof. intros Hs. destruct s; [discriminate | reflexivity]. Qed.

Lemma params_toString_truthy (enc : string → string) (p : string * string)
    (ps : list (string * string)) :
  str_truthy (params_toString enc (p :: ps)) = true.
Proof.
  unfold params_toString. cbn [map String.concat].
  assert (H : str_truthy (enc (fst p) +:+ "=" +:+ enc (snd p)) = true)
    by (apply str_truthy_app_r; reflexivity).
  destruct (map _ ps); [exact H | by apply str_truthy_app_l].
Qed.

Section recent.

Variable String_of_number : JsNum → string.
Variable form_urlencode : string → string.

(** X4. [getRecent] asks for [/article/recent] with no query when no option
    is given (an empty [updated_after] counts as not given), and with a
    query, after one [?], as soon as one is: a [count] or [truncated_count]
    of zero is sent like any other number. *)
Theorem recent_path_query (opts : option RecentOpts) :
  let none_given :=
    match opts ≫= count, opts ≫= updated_after, opts ≫= truncated_count with
    | None, None, None => true
    | None, Some s, None => negb (str_truthy s)
    | _, _, _ => false
    end in
  (none_given = true →
   recent_path String_of_number form_urlencode opts = "/article/recent")
  ∧ (none_given = false →
     ∃ query, str_truthy query = true
              ∧ recent_path String_of_number form_urlencode opts
                = "/article/recent?" +:+ query).
Proof.
  cbv zeta. unfold recent_path.
  destruct (opts ≫= count) as [c|], (opts ≫= updated_after) as [u|],
    (opts ≫= truncated_count) as [t|];
    try destruct (str_truthy u) eqn:Hu; cbn [negb];
    (split; intros Hg; try discriminate Hg; try reflexivity);
    unfold params_set; cbn [existsb fst String.eqb Ascii.eqb Bool.eqb orb app];
    rewrite params_toString_truthy;
    (eexists; split; [apply params_toString_truthy | reflexivity]).
Qed.

End recent.

Lemma recent_path_query_witness :
  ∃ query, str_truthy query = true
           ∧ recent_path (fun _ => "0") (fun s => s)
               (Some {| count := Some (num_of_Z 0); updated_after := Some EmptyString;
                        truncated_count := None |})
             = "/article/recent?" +:+ query.
Proof.
  apply (recent_path_query (fun _ => "0") (fun s => s)
           (Some {| count := Some (num_of_Z 0); updated_after := Some EmptyString;
                    truncated_count := None |})).
  reflexivity.
Defined.

Lemma unwrap_data_data_cases (body : JsVal) :
  unwrap_data_data body ≠ VUndefined
  ∧ (unwrap_data_data body ≠ VNull →
     ∃ outer inner, body = VObj outer
                    ∧ own_property outer "data" = VObj inner
                    ∧ own_property inner "data" = unwrap_data_data body).
Proof.
  unfold unwrap_data_data, nullish_or.
  destruct body as [| | b | x | x | items | outer]; cbn;
    try (split; [discriminate | by intros []]).
  destruct (own_property outer "data") as [| | b | x | x | items | inner] eqn:Ho;
    cbn; try (split; [discriminate | by intros []]).
  destruct (own_property inner "data") eqn:Hi; cbn;
    (split; [discriminate | intros Hv; try (by destruct Hv)]);
    exists outer, inner; by rewrite Hi.
Qed.

Section list_operations.

Variable endpoint userAgent : string.
Variable encodeURIComponent : string → string.
Variable String_of_number : JsNum → string.
Variable form_urlencode : string → string.

(** X5. Whatever body the transport resolves to, [getRecent], [getCount],
    [getRelevant] and [getHistory] do not throw and return the same value,
    which is never [undefined]; they do not look at [code]; and the value is
    other than [null] only for a body that is an object whose [data] is an
    object with a [data] of its own, which is then the value. *)
Theorem list_operations_unwrap_twice (body : JsVal) (opts : option RecentOpts)
    (id : string) (extra : option Headers) :
  let transport := λ (_ : string) (_ : Headers), Ret body in
  ∃ v,
    getRecent endpoint userAgent String_of_number form_urlencode transport opts extra
    = Ret v
    ∧ getCount endpoint userAgent transport extra = Ret v
    ∧ getRelevant endpoint userAgent encodeURIComponent transport id extra = Ret v
    ∧ getHistory endpoint userAgent encodeURIComponent transport id extra = Ret v
    ∧ v ≠ VUndefined
    ∧ (v ≠ VNull →
       ∃ outer inner, body = VObj outer
                      ∧ own_property outer "data" = VObj inner
                      ∧ own_property inner "data" = v).
Proof.
  intros transport. exists (unwrap_data_data body).
  repeat split; try reflexivity; apply unwrap_data_data_cases.
Qed.

End list_operations.

Lemma list_operations_unwrap_twice_witness :
  ∃ outer inner,
    VObj [("data", VObj [("data", VArr [VStr "a"])])] = VObj outer
    ∧ own_property outer "data" = VObj inner
    ∧ own_property inner "data" = VArr [VStr "a"].
Proof.
  destruct (list_operations_unwrap_twice "http://x" "Uptime-Kuma" (fun s => s)
              (fun _ => "0") (fun s => s)
              (VObj [("data", VObj [("data", VArr [VStr "a"])])]) None "1" None)
    as (v & Hv & _ & _ & _ & _ & Hdeep).
  injection Hv as <-. apply Hdeep. discriminate.
Defined.

(** X6. A client built by [apply] from a configuration without a user agent
    (absent or empty) sends [User-Agent: Uptime-Kuma], and one built without
    an endpoint requests every path as it is; a configured value that is not
    empty is the one used. *)
Theorem apply_defaults (env : Capture.Env) (path : string) :
  (Capture.config_userAgent env = None
   ∨ Capture.config_userAgent env = Some EmptyString →
   headers (Capture.userAgent env) None !! "User-Agent" = Some "Uptime-Kuma")
  ∧ (Capture.config_endpoint env = None
     ∨ Capture.config_endpoint env = Some EmptyString →
     buildUrl (Capture.endpoint env) path = path)
  ∧ (∀ ua, Capture.config_userAgent env = Some ua → str_truthy ua = true →
           headers (Capture.userAgent env) None !! "User-Agent" = Some ua)
  ∧ (∀ e, Capture.config_endpoint env = Some e → str_truthy e = true →
          Capture.endpoint env = e).
Proof.
  unfold Capture.userAgent, Capture.endpoint, Capture.str_or.
  repeat split.
  - intros [-> | ->]; apply ClientFacts.headers_user_agent.
  - intros [-> | ->]; reflexivity.
  - intros ua -> ->. apply ClientFacts.headers_user_agent.
  - intros e -> ->. reflexivity.
Qed.

Lemma apply_defaults_witness :
  headers (Capture.userAgent Samples.env_ok) None !! "User-Agent" = Some "Uptime-Kuma"
  ∧ Capture.endpoint Samples.env_ok = "http://x/".
Proof.
  pose proof (apply_defaults Samples.env_ok "/a") as (Hua & _ & _ & Hep).
  split; [apply Hua; by left | by apply Hep].
Defined.

(** X24. The earlier revision of [buildUrl] writes one line to the console
    exactly when the endpoint, without its trailing slash, is not empty.
    The line is the URL it returns when the path starts with a slash, and
    the URL without the slash it puts in when the path does not. *)
Theorem buildUrl_logging_console (endpoint path : string) :
  (strip_trailing_slash endpoint = EmptyString →
   fst (buildUrl_logging endpoint path) = [])
  ∧ (strip_trailing_slash endpoint ≠ EmptyString →
     fst (buildUrl_logging endpoint path)
     = [strip_trailing_slash endpoint +:+ path])
  ∧ (strip_trailing_slash endpoint ≠ EmptyString →
     starts_with_slash path = true →
     fst (buildUrl_logging endpoint path) = [snd (buildUrl_logging endpoint path)])
  ∧ (strip_trailing_slash endpoint ≠ EmptyString →
     starts_with_slash path = false →
     snd (buildUrl_logging endpoint path)
     = strip_trailing_slash endpoint +:+ "/" +:+ path).
Proof.
  unfold buildUrl_logging.
  destruct (strip_trailing_slash endpoint) as [|c base]; cbn [str_truthy negb];
    (split; [|split; [|split]]); intros H; try (by destruct H); try discriminate H;
    try reflexivity.
  - by destruct (starts_with_slash path).
  - intros ->. reflexivity.
  - intros ->. reflexivity.
Qed.

Lemma buildUrl_logging_console_witness :
  snd (buildUrl_logging "http://x/" "a/b") = "http://x" +:+ "/" +:+ "a/b"
  ∧ fst (buildUrl_logging "http://x/" "a/b") = ["http://x" +:+ "a/b"].
Proof.
  pose proof (buildUrl_logging_console "http://x/" "a/b") as (_ & Hline & _ & Hurl).
  split; [apply Hurl | apply Hline]; try discriminate; reflexivity.
Defined.

End ClientMore.

(** * The text commands *)

Module TextCommandFacts.

Import Client TextCommands.

Section text_commands.

Variable endpoint userAgent : string.
Variable encodeURIComponent : string → string.
Variable String_of_number : JsNum → string.
Variable http_get_article : string → Headers → Res (StdResponse Article).
Variable http_get_task : string → Headers → Res (StdResponse JsVal).
Variable http_post_task :
  string → TaskCreate → Headers → Res (StdResponse TaskCreateResponse).
Variable absent_text : string.
Variable statusToString : JsVal → string.
Variable JSON_stringify : JsVal → string.

(** X7. [获取文章信息] with an id: when the service answers with a code
    other than 200 the reply is [未找到文章] and the console got [null]; when
    it answers 200 the reply is title, [ by ] and author id, and the console
    got the article; when the request fails the command fails with the same
    error and writes nothing. *)
Theorem info_command_replies (id : string) :
  str_truthy id = true →
  let outcome :=
    http_get_article
      (buildUrl endpoint ("/article/query/" +:+ encodeURIComponent id))
      (headers userAgent None) in
  let run :=
    info_command endpoint userAgent encodeURIComponent String_of_number
      http_get_article absent_text (Some id) in
  (∀ res, outcome = Ret res →
          num_strict_eq (code res) (num_of_Z 200) = false →
          run = ([None], Ret "未找到文章"))
  ∧ (∀ res title, outcome = Ret res →
          num_strict_eq (code res) (num_of_Z 200) = true →
          art_title (data res) = Some title →
          run = ([Some (data res)],
                 Ret (title +:+ " by "
                      +:+ String_of_number (art_authorId (data res)))))
  ∧ (∀ e, outcome = Thrown e → run = ([], Thrown e)).
Proof.
  intros Hid outcome run. subst outcome run.
  unfold info_command, getArticle, Capture.arg_missing. rewrite Hid. cbn [negb].
  change (default EmptyString (Some id)) with id.
  repeat split.
  - intros res -> ->. reflexivity.
  - intros res title -> -> Ht. cbn [negb]. rewrite Ht. reflexivity.
  - intros e ->. reflexivity.
Qed.

(** X8. [创建保存任务] answers that the task was created, with its id, only
    when the service answers 200 with a task id that is not empty; a code
    other than 200, and also a 200 with an empty task id, give [创建失败]; a
    failed request makes the command fail with the same error. *)
Theorem create_command_replies (target targetId : string) :
  let outcome :=
    http_post_task (buildUrl endpoint "/task/create")
      (TaskSave target targetId None) (headers userAgent None) in
  let run := create_command endpoint userAgent http_post_task target targetId in
  (∀ res, outcome = Ret res →
          num_strict_eq (code res) (num_of_Z 200) = true →
          str_truthy (taskId (data res)) = true →
          run = Ret ("保存任务已创建，ID: " +:+ taskId (data res)))
  ∧ (∀ res, outcome = Ret res →
          num_strict_eq (code res) (num_of_Z 200) = false
          ∨ taskId (data res) = EmptyString →
          run = Ret "创建失败")
  ∧ (∀ e, outcome = Thrown e → run = Thrown e).
Proof.
  intros outcome run. subst outcome run. unfold create_command, createTask.
  repeat split.
  - intros res -> -> Hid. cbn [negb]. rewrite Hid. reflexivity.
  - intros res -> [-> | Hid]; [reflexivity|].
    destruct (num_strict_eq _ _); cbn [negb]; [|reflexivity].
    rewrite Hid. reflexivity.
  - intros e ->. reflexivity.
Qed.

(** X9. [查询任务状态] with an id never fails once the request has an
    answer: a code other than 200, and a 200 whose data is [null], give
    [任务不存在或返回为空]; data that is an object with a [status] gives the
    status line for that id; any other data is answered as JSON. *)
Theorem task_command_replies (id : string) :
  str_truthy id = true →
  let outcome :=
    http_get_task (buildUrl endpoint ("/task/query/" +:+ encodeURIComponent id))
      (headers userAgent None) in
  let run :=
    task_command endpoint userAgent encodeURIComponent http_get_task
      statusToString JSON_stringify (Some id) in
  (∀ res, outcome = Ret res → ∃ text, run = Ret text)
  ∧ (∀ res, outcome = Ret res →
          num_strict_eq (code res) (num_of_Z 200) = false
          ∨ nullish (data res) = true →
          run = Ret "任务不存在或返回为空")
  ∧ (∀ res, outcome = Ret res →
          num_strict_eq (code res) (num_of_Z 200) = true →
          has_status (data res) = true →
          run = Ret ("任务 " +:+ id +:+ " 状态: "
                     +:+ statusToString (status_of (data res))))
  ∧ (∀ res, outcome = Ret res →
          num_strict_eq (code res) (num_of_Z 200) = true →
          nullish (data res) = false → has_status (data res) = false →
          run = Ret (JSON_stringify (data res)))
  ∧ (∀ e, outcome = Thrown e → run = Thrown e).
Proof.
  intros Hid outcome run. subst outcome run.
  unfold task_command, getTask, Capture.arg_missing. rewrite Hid. cbn [negb].
  change (default EmptyString (Some id)) with id.
  repeat split.
  - intros res ->. destruct (num_strict_eq _ _); cbn [negb nullish]; [|by eexists].
    destruct (nullish (data res)); [by eexists|].
    destruct (has_status (data res)); by eexists.
  - intros res -> [-> | Hnull]; [reflexivity|].
    destruct (num_strict_eq _ _); cbn [negb]; [|reflexivity]. by rewrite Hnull.
  - intros res -> -> Hs. cbn [negb].
    destruct (data res) as [| | b | x | x | items | fields]; try discriminate Hs.
    cbn [nullish]. by rewrite Hs.
  - intros res -> -> Hn Hs. cbn [negb]. rewrite Hn, Hs. reflexivity.
  - intros e ->. reflexivity.
Qed.

End text_commands.

Lemma info_command_replies_witness :
  info_command "http://x/" "Uptime-Kuma" (fun s => s) (fun _ => "42")
    (fun _ _ => Ret (mkStdResponse (num_of_Z 200) "ok" Samples.article_T))
    "null" (Some "1")
  = ([Some Samples.article_T], Ret ("T" +:+ " by " +:+ "42")).
Proof.
  apply (proj1 (proj2 (info_command_replies "http://x/" "Uptime-Kuma" (fun s => s)
                         (fun _ => "42")
                         (fun _ _ => Ret (mkStdResponse (num_of_Z 200) "ok"
                                            Samples.article_T))
                         "null" "1" eq_refl))
           (mkStdResponse (num_of_Z 200) "ok" Samples.article_T) "T");
    reflexivity.
Defined.

Lemma create_command_replies_witness :
  create_command "http://x/" "Uptime-Kuma"
    (fun _ _ _ => Ret (mkStdResponse (num_of_Z 200) "ok" (mkTaskCreateResponse EmptyString)))
    "article" "abc"
  = Ret "创建失败".
Proof.
  apply (proj1 (proj2 (create_command_replies "http://x/" "Uptime-Kuma"
                         (fun _ _ _ => Ret (mkStdResponse (num_of_Z 200) "ok"
                                              (mkTaskCreateResponse EmptyString)))
                         "article" "abc"))
           (mkStdResponse (num_of_Z 200) "ok" (mkTaskCreateResponse EmptyString)));
    [reflexivity | by right].
Defined.

Lemma task_command_replies_witness :
  task_command "http://x/" "Uptime-Kuma" (fun s => s)
    (fun _ _ => Ret (mkStdResponse (num_of_Z 200) "ok" VNull))
    (fun _ => "status") (fun _ => "json") (Some "7")
  = Ret "任务不存在或返回为空".
Proof.
  apply (proj1 (proj2 (task_command_replies "http://x/" "Uptime-Kuma" (fun s => s)
                         (fun _ _ => Ret (mkStdResponse (num_of_Z 200) "ok" VNull))
                         (fun _ => "status") (fun _ => "json") "7" eq_refl))
           (mkStdResponse (num_of_Z 200) "ok" VNull));
    [reflexivity | by right].
Defined.

End TextCommandFacts.

(** * More about the in-page image wait *)

Module ImageWaitMore.

Import ImageWait ImageWaitFacts.

Lemma event_loop_kept (cmd : Command) (n : nat) (events : list ImgEvent)
    (st : PState) (t : Z) :
  resolved st = Some t → resolved (event_loop cmd n events st) = Some t.
Proof.
  revert st. induction events as [|ev rest IH]; intros st Hr.
  - by apply fire_timer_kept.
  - cbn [event_loop]. apply IH. unfold dispatch. apply calls_settled.
    destruct (timer_due _ st); [by apply fire_timer_kept | exact Hr].
Qed.

Lemma event_loop_registry (cmd : Command) (n : nat) (events : list ImgEvent)
    (st : PState) :
  registry (event_loop cmd n events st) = registry st.
Proof.
  revert st. induction events as [|ev rest IH]; intros st.
  - apply fire_timer_registry.
  - cbn [event_loop]. rewrite IH. unfold dispatch. rewrite calls_registry.
    destruct (timer_due _ st); [apply fire_timer_registry | reflexivity].
Qed.

Lemma pending_from_all_complete (imgs : list Img) (i : nat) :
  forallb complete imgs = true → pending_from i imgs = [].
Proof.
  revert i. induction imgs as [|img imgs IH]; intros i H; [reflexivity|].
  cbn in H. apply andb_true_iff in H as [Hc Hrest].
  cbn [pending_from]. rewrite Hc. by apply IH.
Qed.

(** X10. When every image of a document that has images is already
    complete, the wait of either command is over at time 0 and no listener
    is registered; the article command has cleared its timer by then, the
    paste command sets its timer after fulfilling the promise. *)
Theorem complete_images_resolve_at_once (cmd : Command) (imgs : list Img)
    (events : list ImgEvent) :
  imgs ≠ [] → forallb complete imgs = true →
  resolved (image_wait cmd imgs events) = Some 0
  ∧ registry (image_wait cmd imgs events) = []
  ∧ timer (executor ArticleCmd imgs) = None
  ∧ timer (executor PasteCmd imgs) = Some 5000.
Proof.
  intros Hne Hall.
  pose proof (pending_from_all_complete imgs 0 Hall) as HP.
  assert (Hex : ∀ c, resolved (executor c imgs) = Some 0).
  { intros c. destruct (executor_counts c imgs Hne) as [H0 | (_ & Hlt & Hsum)];
      [exact H0|]. rewrite HP in Hsum. cbn in Hsum. lia. }
  repeat split.
  - unfold image_wait. apply event_loop_kept, Hex.
  - unfold image_wait. rewrite event_loop_registry, executor_registry by exact Hne.
    by rewrite HP.
  - specialize (Hex ArticleCmd). unfold executor, article_executor in *.
    destruct imgs as [|img imgs]; [by destruct Hne|]. cbn [length Nat.eqb] in *.
    destruct (Nat.eqb _ _); [reflexivity|].
    rewrite forEach_img_resolved in Hex. discriminate.
  - unfold executor, paste_executor.
    destruct imgs as [|img imgs]; [by destruct Hne|]. reflexivity.
Qed.

Lemma complete_images_resolve_at_once_witness :
  resolved (image_wait PasteCmd [mkImg true; mkImg true] [(7, 1%nat, OnLoad)])
  = Some 0.
Proof.
  apply (complete_images_resolve_at_once PasteCmd [mkImg true; mkImg true]
           [(7, 1%nat, OnLoad)]); [discriminate | reflexivity].
Defined.

Lemma lookup_pending_from (todo : list Img) (i k : nat) (img : Img) :
  todo !! k = Some img → complete img = false → In (i + k)%nat (pending_from i todo).
Proof.
  revert i k. induction todo as [|x rest IH]; intros i k Hk Hc; [discriminate|].
  cbn [pending_from]. destruct k as [|k].
  - cbn in Hk. injection Hk as ->. rewrite Hc, Nat.add_0_r. by left.
  - cbn in Hk. replace (i + S k)%nat with (S i + k)%nat by lia.
    destruct (complete x); [|right]; by apply IH.
Qed.

Lemma in_entries (j : nat) (type : EventType) (P : list nat) :
  In (j, type) (entries P) ↔ In j P.
Proof.
  unfold entries. rewrite in_flat_map. split.
  - intros (k & Hk & [H | [H | []]]); injection H as -> _; exact Hk.
  - intros Hj. exists j. split; [exact Hj|]. destruct type; cbn; auto.
Qed.

(** X11. At any moment of the wait of either command the listeners are
    those of the images that were not complete when the executor ran, a
    [load] and an [error] listener each: an image has a listener exactly
    when it is in the document and was not complete. *)
Theorem listeners_only_on_incomplete_images (cmd : Command) (imgs : list Img)
    (events : list ImgEvent) (j : nat) (type : EventType) :
  In (j, type) (registry (image_wait cmd imgs events))
  ↔ ∃ img, imgs !! j = Some img ∧ complete img = false.
Proof.
  unfold image_wait. rewrite event_loop_registry.
  assert (Hreg : registry (executor cmd imgs) = entries (pending_from 0 imgs)).
  { destruct imgs as [|img imgs]; [destruct cmd; reflexivity|].
    by apply executor_registry. }
  rewrite Hreg, in_entries. split.
  - intros Hin. destruct (pending_from_lookup _ _ _ Hin) as [_ (img & Himg & Hc)].
    rewrite Nat.sub_0_r in Himg. by exists img.
  - intros (img & Himg & Hc). apply (lookup_pending_from imgs 0 j img Himg Hc).
Qed.

Lemma listeners_only_on_incomplete_images_witness :
  ∃ img, [mkImg true; mkImg false] !! 1%nat = Some img ∧ complete img = false.
Proof.
  apply (listeners_only_on_incomplete_images ArticleCmd [mkImg true; mkImg false]
           [] 1 OnError).
  vm_compute. right. left. reflexivity.
Defined.

(** *** An image that never fires *)

Lemma total_hits_cons (j : nat) (Q : list nat) (events : list ImgEvent) :
  total_hits (j :: Q) events
  = (count_in j (map (fun ev => snd (fst ev)) events) + total_hits Q events)%nat.
Proof.
  induction events as [|ev rest IH]; [reflexivity|].
  cbn [total_hits count_in map]. rewrite IH, (Nat.eqb_sym j). lia.
Qed.

Lemma count_in_absent (j : nat) (l : list nat) : ¬ In j l → count_in j l = 0%nat.
Proof.
  induction l as [|k l IH]; [reflexivity|]. intros Hn. cbn [count_in].
  destruct (Nat.eqb_spec k j) as [-> | _]; [destruct Hn; by left|].
  rewrite IH; [reflexivity|]. intros H. apply Hn. by right.
Qed.

Lemma count_in_NoDup (j : nat) (l : list nat) : List.NoDup l → (count_in j l ≤ 1)%nat.
Proof.
  induction 1 as [|k l Hk Hl IH]; [cbn; lia|]. cbn [count_in].
  destruct (Nat.eqb_spec k j) as [-> | _]; [|lia].
  rewrite (count_in_absent j l Hk). lia.
Qed.

Lemma total_hits_nil (events : list ImgEvent) : total_hits [] events = 0%nat.
Proof. induction events as [|ev rest IH]; [reflexivity | exact IH]. Qed.

(** When no image fires twice and one image of [P] does not fire at all,
    the handler is called fewer times than [P] has images. *)
Lemma total_hits_short (P : list nat) (events : list ImgEvent) (j : nat) :
  List.NoDup (map (fun ev => snd (fst ev)) events) →
  ¬ In j (map (fun ev => snd (fst ev)) events) →
  In j P → (total_hits P events < length P)%nat.
Proof.
  intros Hnd Hj.
  assert (Hle : ∀ Q, (total_hits Q events ≤ length Q)%nat).
  { induction Q as [|q Q IH]; [rewrite total_hits_nil; cbn; lia|].
    rewrite total_hits_cons. cbn [length].
    pose proof (count_in_NoDup q _ Hnd). lia. }
  induction P as [|p P IH]; intros Hin; [destruct Hin|].
  rewrite total_hits_cons. cbn [length]. destruct Hin as [-> | Hin].
  - rewrite (count_in_absent j _ Hj). specialize (Hle P). lia.
  - specialize (IH Hin). pose proof (count_in_NoDup p _ Hnd). lia.
Qed.

(** Calls that leave [loaded] below [n] leave the promise pending and the
    timer as it is. *)
Lemma calls_stay_pending (cmd : Command) (n : nat) (now : Z)
    (l : list (nat * EventType)) (st : PState) :
  resolved st = None → (loaded st + length l < n)%nat →
  resolved (call_handlers cmd n now l st) = None
  ∧ timer (call_handlers cmd n now l st) = timer st
  ∧ loaded (call_handlers cmd n now l st) = (loaded st + length l)%nat.
Proof.
  revert st. induction l as [|x l IH]; intros st Hr Hlt.
  - cbn. repeat split; [exact Hr | lia].
  - unfold call_handlers in *. cbn [fold_left length] in *.
    assert (Hh : handler cmd n now st = incr_loaded st).
    { unfold handler. cbn [incr_loaded loaded].
      destruct (Nat.eqb_spec (S (loaded st)) n); [lia | reflexivity]. }
    rewrite Hh. destruct (IH (incr_loaded st)) as (H1 & H2 & H3);
      [exact Hr | cbn; lia |].
    repeat split; [exact H1 | exact H2 | rewrite H3; cbn; lia].
Qed.

Lemma event_loop_times_out (cmd : Command) (n : nat) (P : list nat)
    (events : list ImgEvent) (st : PState) :
  registry st = entries P →
  resolved st = Some 5000
  ∨ (resolved st = None ∧ timer st = Some 5000
     ∧ (loaded st + total_hits P events < n)%nat) →
  resolved (event_loop cmd n events st) = Some 5000.
Proof.
  revert st. induction events as [|ev rest IH]; intros st Hreg Hst.
  - destruct Hst as [Hr | (Hr & Ht & _)]; [by apply fire_timer_kept|].
    cbn. unfold fire_timer. rewrite Ht. cbn. by rewrite Hr.
  - cbn [event_loop]. destruct Hst as [Hr | (Hr & Ht & Hlt)].
    + apply event_loop_kept. unfold dispatch. apply calls_settled.
      destruct (timer_due _ st); [by apply fire_timer_kept | exact Hr].
    + cbn [total_hits] in Hlt. destruct (timer_due _ st) eqn:Hdue.
      * apply event_loop_kept. unfold dispatch. apply calls_settled.
        unfold fire_timer. rewrite Ht. cbn. by rewrite Hr.
      * destruct (calls_stay_pending cmd n (fst (fst ev))
                    (List.filter (listens ev) (registry st)) st Hr)
          as (H1 & H2 & H3).
        { rewrite Hreg, calls_of_event. lia. }
        apply IH.
        -- unfold dispatch. by rewrite calls_registry.
        -- right. unfold dispatch. repeat split; [exact H1 | congruence |].
           rewrite H3, Hreg, calls_of_event. lia.
Qed.

Lemma executor_pending (cmd : Command) (imgs : list Img) :
  pending_from 0 imgs ≠ [] →
  resolved (executor cmd imgs) = None
  ∧ timer (executor cmd imgs) = Some 5000
  ∧ (loaded (executor cmd imgs) + length (pending_from 0 imgs) = length imgs)%nat.
Proof.
  intros HP. destruct imgs as [|img imgs]; [by destruct HP|].
  assert (Hlen : (0 < length (pending_from 0 (img :: imgs)))%nat)
    by (destruct (pending_from 0 (img :: imgs)); [by destruct HP | cbn; lia]).
  destruct cmd; unfold executor, article_executor, paste_executor;
    cbn [length Nat.eqb].
  - pose proof (forEach_img_loaded (img :: imgs) 0 (setTimeout 0 5000 initial)) as Hl.
    cbn [loaded setTimeout initial length] in Hl.
    destruct (Nat.eqb_spec
                (loaded (forEach_img 0 (img :: imgs) (setTimeout 0 5000 initial)))
                (S (length imgs))) as [Heq | Hne]; [lia|].
    rewrite forEach_img_resolved, forEach_img_timer.
    repeat split; try reflexivity; lia.
  - pose proof (forEach_img_loaded (img :: imgs) 0 initial) as Hl.
    cbn [loaded initial length] in Hl.
    destruct (Nat.eqb_spec (loaded (forEach_img 0 (img :: imgs) initial))
                (S (length imgs))) as [Heq | Hne]; [lia|].
    cbn [resolved timer loaded setTimeout]. rewrite forEach_img_resolved.
    repeat split; try reflexivity; lia.
Qed.

(** X12. An image that was not complete and never fires [load] or [error]
    holds the wait of either command until the timer: when no image fires
    more than once, the promise is fulfilled at 5000 ms exactly, not
    before, however many of the other images have reported. *)
Theorem hung_image_waits_for_the_ceiling (cmd : Command) (imgs : list Img)
    (events : list ImgEvent) (j : nat) (img : Img) :
  imgs !! j = Some img → complete img = false →
  ¬ In j (map (fun ev => snd (fst ev)) events) →
  List.NoDup (map (fun ev => snd (fst ev)) events) →
  resolved (image_wait cmd imgs events) = Some 5000.
Proof.
  intros Himg Hc Hj Hnd.
  pose proof (lookup_pending_from imgs 0 j img Himg Hc) as HjP. cbn in HjP.
  assert (HP : pending_from 0 imgs ≠ []) by (intros E; by rewrite E in HjP).
  assert (Hne : imgs ≠ []) by (intros E; by rewrite E in Himg).
  destruct (executor_pending cmd imgs HP) as (Hr & Ht & Hsum).
  pose proof (total_hits_short _ events j Hnd Hj HjP) as Hshort.
  unfold image_wait.
  apply (event_loop_times_out cmd (length imgs) (pending_from 0 imgs));
    [by apply executor_registry|].
  right. repeat split; [exact Hr | exact Ht | lia].
Qed.

Lemma hung_image_waits_for_the_ceiling_witness :
  resolved (image_wait ArticleCmd [mkImg false; mkImg false] [(12, 0%nat, OnLoad)])
  = Some 5000.
Proof.
  apply (hung_image_waits_for_the_ceiling ArticleCmd [mkImg false; mkImg false]
           [(12, 0%nat, OnLoad)] 1 (mkImg false)); try reflexivity.
  - cbn. intros [H | []]. discriminate.
  - cbn. repeat constructor. intros [].
Defined.

End ImageWaitMore.

(** * More about the render-and-capture commands *)

Module CaptureMore.

Import Client Render ImageWait Capture Protocol CaptureFacts.

(** All that the [try] statement of a command does, by the outcomes of the
    page calls, when it starts from an empty log. *)
Lemma session_facts (cmd : Command) (env : Env) (html : string)
    (options_width : option JsNum) (n : Z) :
  let run := session_of cmd env html options_width (start n) in
  let navigated :=
    succeeded (setViewport_outcome env (viewport_of options_width))
    && succeeded (setContent_outcome env html) in
  fst run = Ret (reply_of cmd env html options_width)
  ∧ ascending (map phase (EvPage :: log (snd run))) = true
  ∧ existsb is_error (log (snd run))
    = negb (navigated && succeeded (screenshot_outcome env))
  ∧ existsb is_screenshot (log (snd run)) = navigated
  ∧ existsb is_image_wait (log (snd run)) = navigated
  ∧ existsb is_warn (log (snd run))
    = match cmd with
      | ArticleCmd => navigated && negb (succeeded (fonts_outcome env))
      | PasteCmd => false
      end.
Proof.
  destruct cmd; cbv beta delta [session_of reply_of start] iota zeta;
    unfold_session; fold (viewport_of options_width);
    split_outcomes env; repeat split.
Qed.

(** Where the [try] statement starts makes no difference to what it
    answers and to the calls it adds. *)
Lemma session_frame (cmd : Command) (env : Env) (html : string)
    (options_width : option JsNum) (w : World) :
  fst (session_of cmd env html options_width w)
  = fst (session_of cmd env html options_width (start 0))
  ∧ log (snd (session_of cmd env html options_width w))
    = (log w ++ log (snd (session_of cmd env html options_width (start 0))))%list.
Proof.
  destruct cmd; cbv beta delta [session_of start] iota zeta;
    unfold_session; fold (viewport_of options_width);
    split_outcomes env; (split; [reflexivity|]);
    rewrite <- ?app_assoc; reflexivity.
Qed.

(** A command calls nothing, or gets a page and runs its [try] statement
    on some snapshot. *)
Lemma command_run (cmd : Command) (env : Env) (id : option string)
    (options_width : option JsNum) (n : Z) :
  let run := run_command cmd env id options_width n in
  log (snd run) = []
  ∨ ∃ html,
      fst run = fst (session_of cmd env html options_width (start 0))
      ∧ log (snd run)
        = EvPage :: log (snd (session_of cmd env html options_width (start 0))).
Proof.
  destruct cmd; cbv beta delta [run_command article_command paste_command bind lift ret] zeta.
  - destruct (arg_missing id); [by left|].
    destruct (getArticle _ _ _ _ _ _) as [[art|]|e]; [|by left..].
    cbv beta iota zeta.
    match goal with
    | |- context [generateHtml ?r ?t ?a ?b] => generalize (generateHtml r t a b)
    end.
    intros html. destruct (has_puppeteer env); [|by left].
    cbv beta iota delta [negb acquire_page].
    destruct (page_outcome env); [|by left].
    cbv beta iota. right. exists html.
    destruct (session_frame ArticleCmd env html options_width
                (emit EvPage {| available := available (start n) - 1;
                                log := log (start n) |})) as [Hr Hl].
    split; [exact Hr | exact Hl].
  - destruct (arg_missing id); [by left|].
    destruct (getPaste _ _ _ _ _ _) as [[paste|]|e]; [|by left..].
    cbv beta iota zeta.
    match goal with
    | |- context [generateHtml ?r ?t ?a ?b] => generalize (generateHtml r t a b)
    end.
    intros html. destruct (has_puppeteer env); [|by left].
    cbv beta iota delta [negb acquire_page].
    destruct (page_outcome env); [|by left].
    cbv beta iota. right. exists html.
    destruct (session_frame PasteCmd env html options_width
                (emit EvPage {| available := available (start n) - 1;
                                log := log (start n) |})) as [Hr Hl].
    split; [exact Hr | exact Hl].
Qed.

(** X13. Once a command has a page it always answers and never fails:
    either with the image the screenshot gave, and then it logged no error,
    or with its failure text, and then it logged the error. *)
Theorem command_answers_once_it_has_a_page (cmd : Command) (env : Env)
    (id : option string) (options_width : option JsNum) (n : Z) :
  let run := run_command cmd env id options_width n in
  In EvPage (log (snd run)) →
  (∃ buffer, fst run = Ret (Image buffer "image/png")
             ∧ screenshot_outcome env = Ret buffer
             ∧ existsb is_error (log (snd run)) = false)
  ∨ (fst run = Ret (Text (failure_text cmd))
     ∧ existsb is_error (log (snd run)) = true).
Proof.
  intros run Hpage. subst run.
  destruct (command_run cmd env id options_width n) as [Hnil | (html & Hr & Hl)].
  - rewrite Hnil in Hpage. destruct Hpage.
  - rewrite Hr, Hl. cbn [existsb is_error orb].
    destruct (session_facts cmd env html options_width 0)
      as (Hreply & _ & Herr & _).
    cbv zeta in Hreply, Herr. rewrite Hreply, Herr. unfold reply_of.
    destruct (setViewport_outcome env _); [|by right].
    destruct (setContent_outcome env html); [|by right].
    destruct (screenshot_outcome env) as [buffer|]; [|by right].
    left. by exists buffer.
Qed.

Lemma command_answers_once_it_has_a_page_witness :
  let run := run_command ArticleCmd Samples.env_load_fails (Some "1") None 3 in
  (∃ buffer, fst run = Ret (Image buffer "image/png")
             ∧ screenshot_outcome Samples.env_load_fails = Ret buffer
             ∧ existsb is_error (log (snd run)) = false)
  ∨ (fst run = Ret (Text (failure_text ArticleCmd))
     ∧ existsb is_error (log (snd run)) = true).
Proof.
  apply (command_answers_once_it_has_a_page ArticleCmd Samples.env_load_fails
           (Some "1") None 3).
  vm_compute. left. reflexivity.
Defined.

(** X14. What the [try] statement of either command answers depends on
    three calls only: the image, when [setViewport], [setContent] and
    [screenshot] all succeed, and the failure text when one of them throws.
    How the font wait, the flag wait and the image wait end changes
    nothing. *)
Theorem reply_ignores_the_waits (cmd : Command) (env : Env) (html : string)
    (options_width : option JsNum) (w : World) :
  fst (session_of cmd env html options_width w)
  = match setViewport_outcome env (viewport_of options_width),
          setContent_outcome env html,
          screenshot_outcome env with
    | Ret _, Ret _, Ret buffer => Ret (Image buffer "image/png")
    | _, _, _ => Ret (Text (failure_text cmd))
    end.
Proof.
  rewrite (proj1 (session_frame cmd env html options_width w)).
  rewrite (proj1 (session_facts cmd env html options_width 0)).
  unfold reply_of.
  destruct (setViewport_outcome env _); [|reflexivity].
  destruct (setContent_outcome env html); [|reflexivity].
  destruct (screenshot_outcome env); reflexivity.
Qed.

(** X15. In the [try] statement of either command the image wait and the
    screenshot are attempted exactly when [setViewport] and [setContent]
    succeeded: a font wait, flag wait or image wait that fails or times out
    never keeps the screenshot from being taken. *)
Theorem capture_attempted_after_navigation (cmd : Command) (env : Env)
    (html : string) (options_width : option JsNum) (n : Z) :
  let calls := log (snd (session_of cmd env html options_width (start n))) in
  let navigated :=
    succeeded (setViewport_outcome env (viewport_of options_width))
    && succeeded (setContent_outcome env html) in
  existsb is_image_wait calls = navigated
  ∧ existsb is_screenshot calls = navigated.
Proof.
  destruct (session_facts cmd env html options_width n)
    as (_ & _ & _ & Hshot & Hwait & _).
  split; [exact Hwait | exact Hshot].
Qed.

(** X16. The article command logs its font warning exactly when it reached
    the font wait, that is after [setViewport] and [setContent] succeeded,
    and the wait failed; the paste command never logs a warning. *)
Theorem font_warning_only_for_failed_font_wait (env : Env) (html : string)
    (options_width : option JsNum) (n : Z) :
  existsb is_warn (log (snd (session_of ArticleCmd env html options_width (start n))))
  = succeeded (setViewport_outcome env (viewport_of options_width))
    && succeeded (setContent_outcome env html)
    && negb (succeeded (fonts_outcome env))
  ∧ existsb is_warn (log (snd (session_of PasteCmd env html options_width (start n))))
    = false.
Proof.
  split.
  - apply (session_facts ArticleCmd env html options_width n).
  - apply (session_facts PasteCmd env html options_width n).
Qed.

(** X17. The calls of any run of either command are in the order page,
    [setViewport], [setContent], font or flag wait, warning, image wait,
    [screenshot], error, [close], each at most once; a run that makes any
    call starts with getting the page. *)
Theorem calls_follow_the_protocol (cmd : Command) (env : Env)
    (id : option string) (options_width : option JsNum) (n : Z) :
  let calls := log (snd (run_command cmd env id options_width n)) in
  ascending (map phase calls) = true
  ∧ (calls = [] ∨ head calls = Some EvPage).
Proof.
  destruct (command_run cmd env id options_width n) as [Hnil | (html & _ & Hl)].
  - cbv zeta. rewrite Hnil. split; [reflexivity | by left].
  - cbv zeta. rewrite Hl. split; [|by right].
    apply (session_facts cmd env html options_width 0).
Qed.

Ltac start_command Hid :=
  cbv beta delta [run_command article_command paste_command bind lift ret
                  getArticle getPaste arg_missing] iota zeta;
  rewrite Hid; cbv beta delta [negb] iota;
  change (default EmptyString (Some ?x)) with x.

(** X18. A command given an id stops at the fetch when the fetch does not
    give a document: a code other than 200 is answered with the not-found
    text of the command, a failed request makes the command fail with the
    same error, and in both cases no page is asked for and nothing is
    called. *)
Theorem fetch_failure_ends_the_command (env : Env) (id : string)
    (options_width : option JsNum) (n : Z) :
  str_truthy id = true →
  let article :=
    http_get_article env
      (buildUrl (endpoint env) ("/article/query/" +:+ encodeURIComponent env id))
      (headers (userAgent env) None) in
  let paste :=
    http_get_paste env
      (buildUrl (endpoint env) ("/paste/query/" +:+ encodeURIComponent env id))
      (headers (userAgent env) None) in
  (∀ res, article = Ret res → num_strict_eq (code res) (num_of_Z 200) = false →
          run_command ArticleCmd env (Some id) options_width n
          = (Ret (Text "未找到文章"), start n))
  ∧ (∀ e, article = Thrown e →
          run_command ArticleCmd env (Some id) options_width n = (Thrown e, start n))
  ∧ (∀ res, paste = Ret res → num_strict_eq (code res) (num_of_Z 200) = false →
          run_command PasteCmd env (Some id) options_width n
          = (Ret (Text "未找到剪贴板内容"), start n))
  ∧ (∀ e, paste = Thrown e →
          run_command PasteCmd env (Some id) options_width n = (Thrown e, start n)).
Proof.
  intros Hid article paste. subst article paste.
  repeat split.
  - intros res Hres Hcode. start_command Hid. rewrite Hres, Hcode. reflexivity.
  - intros e He. start_command Hid. rewrite He. reflexivity.
  - intros res Hres Hcode. start_command Hid. rewrite Hres, Hcode. reflexivity.
  - intros e He. start_command Hid. rewrite He. reflexivity.
Qed.

Lemma fetch_failure_ends_the_command_witness :
  run_command PasteCmd MoreSamples.env_nothing (Some "1") None 3
  = (Ret (Text "未找到剪贴板内容"), start 3).
Proof.
  apply (proj1 (proj2 (proj2
           (fetch_failure_ends_the_command MoreSamples.env_nothing "1" None 3
              eq_refl)))
           (mkStdResponse (num_of_Z 404) "not found" Samples.paste_1));
    reflexivity.
Defined.

(** X19. A command that has fetched its document stops before any page
    call when it cannot get a page: without the browser service it answers
    with the text that says so, and when asking for the page fails it fails
    with the same error; nothing is called and nothing is closed. *)
Theorem no_page_ends_the_command (env : Env) (id : string)
    (options_width : option JsNum) (n : Z) :
  str_truthy id = true →
  let article :=
    http_get_article env
      (buildUrl (endpoint env) ("/article/query/" +:+ encodeURIComponent env id))
      (headers (userAgent env) None) in
  let paste :=
    http_get_paste env
      (buildUrl (endpoint env) ("/paste/query/" +:+ encodeURIComponent env id))
      (headers (userAgent env) None) in
  let fetched (cmd : Command) :=
    match cmd with
    | ArticleCmd =>
        ∃ res, article = Ret res ∧ num_strict_eq (code res) (num_of_Z 200) = true
    | PasteCmd =>
        ∃ res, paste = Ret res ∧ num_strict_eq (code res) (num_of_Z 200) = true
    end in
  ∀ cmd, fetched cmd →
    (has_puppeteer env = false →
     run_command cmd env (Some id) options_width n
     = (Ret (Text "当前没有可用的 puppeteer 服务。"), start n))
    ∧ (∀ e, has_puppeteer env = true → page_outcome env = Thrown e →
            run_command cmd env (Some id) options_width n = (Thrown e, start n)).
Proof.
  intros Hid article paste fetched cmd Hf. subst article paste fetched.
  destruct cmd; destruct Hf as (res & Hres & Hcode); split.
  - intros Hp. start_command Hid. rewrite Hres, Hcode, Hp. reflexivity.
  - intros e Hp He. start_command Hid. rewrite Hres, Hcode, Hp.
    cbv beta iota delta [acquire_page]. rewrite He. reflexivity.
  - intros Hp. start_command Hid. rewrite Hres, Hcode, Hp. reflexivity.
  - intros e Hp He. start_command Hid. rewrite Hres, Hcode, Hp.
    cbv beta iota delta [acquire_page]. rewrite He. reflexivity.
Qed.

Lemma no_page_ends_the_command_witness :
  run_command ArticleCmd MoreSamples.env_nothing (Some "2") None 3
  = (Ret (Text "当前没有可用的 puppeteer 服务。"), start 3).
Proof.
  apply (no_page_ends_the_command MoreSamples.env_nothing "2" None 3 eq_refl
           ArticleCmd).
  - exists (mkStdResponse (num_of_Z 200) "ok" MoreSamples.article_rendered_only).
    split; reflexivity.
  - reflexivity.
Defined.

(** When [setViewport] succeeds the next call loads the snapshot, waiting
    for the network to be idle. *)
Lemma session_loads_snapshot (cmd : Command) (env : Env) (html : string)
    (options_width : option JsNum) (w : World) :
  succeeded (setViewport_outcome env (viewport_of options_width)) = true →
  ∃ rest,
    log (snd (session_of cmd env html options_width w))
    = (log w ++ EvSetViewport (viewport_of options_width)
         :: EvSetContent html "networkidle0" :: rest)%list.
Proof.
  destruct cmd; cbv beta delta [session_of] iota zeta;
    unfold_session; fold (viewport_of options_width);
    split_outcomes env; cbn [succeeded]; intros Hv; try discriminate Hv;
    rewrite <- ?app_assoc; cbn [app]; eexists; reflexivity.
Qed.

(** X20. The snapshot the article command loads into the page is made from
    the fetched article: the title, or the empty text when the title is
    [null]; the author line [作者 UID: ] and the author id; and as body the
    content, the rendered content when the content is [null], or nothing
    when both are. *)
Theorem article_snapshot_loaded (env : Env) (id : string)
    (options_width : option JsNum) (n : Z) (res : StdResponse Article) :
  str_truthy id = true →
  http_get_article env
    (buildUrl (endpoint env) ("/article/query/" +:+ encodeURIComponent env id))
    (headers (userAgent env) None) = Ret res →
  num_strict_eq (code res) (num_of_Z 200) = true →
  has_puppeteer env = true → page_outcome env = Ret tt →
  succeeded (setViewport_outcome env (viewport_of options_width)) = true →
  let title :=
    match art_title (data res) with Some t => t | None => EmptyString end in
  let author := "作者 UID: " +:+ String_of_number env (art_authorId (data res)) in
  let body :=
    match art_content (data res), art_renderedContent (data res) with
    | Some content, _ => content
    | None, Some rendered => rendered
    | None, None => EmptyString
    end in
  In (EvSetContent (generateHtml (md_render env) title author body) "networkidle0")
    (log (snd (run_command ArticleCmd env (Some id) options_width n))).
Proof.
  intros Hid Hres Hcode Hp Hpage Hv title author body.
  start_command Hid. rewrite Hres, Hcode, Hp. cbv beta iota delta [acquire_page].
  rewrite Hpage. cbv beta iota.
  match goal with
  | |- context [article_session env ?h options_width ?w] =>
      destruct (session_loads_snapshot ArticleCmd env h options_width w Hv)
        as [rest Hlog];
      assert (Hh : h = generateHtml (md_render env) title author body)
  end.
  { subst title body. unfold or_else.
    destruct (art_title (data res)), (art_content (data res)),
      (art_renderedContent (data res)); reflexivity. }
  cbn [session_of] in Hlog. rewrite Hlog, Hh.
  apply in_or_app. right. right. by left.
Qed.

Lemma article_snapshot_loaded_witness :
  In (EvSetContent
        (generateHtml (md_render MoreSamples.env_rendered_only) EmptyString
           ("作者 UID: " +:+ "42") "<p>Old</p>") "networkidle0")
    (log (snd (run_command ArticleCmd MoreSamples.env_rendered_only (Some "2")
                 None 3))).
Proof.
  apply (article_snapshot_loaded MoreSamples.env_rendered_only "2" None 3
           (mkStdResponse (num_of_Z 200) "ok" MoreSamples.article_rendered_only));
    reflexivity.
Defined.

(** X21. The snapshot the paste command loads into the page has the title
    [剪贴板: ] and the paste id; its author line names the creator and the
    creator's id when the paste carries its author, and the author id of
    the paste otherwise; its body is the content, the rendered content when
    the content is [null], or nothing when both are. *)
Theorem paste_snapshot_loaded (env : Env) (id : string)
    (options_width : option JsNum) (n : Z) (res : StdResponse Paste) :
  str_truthy id = true →
  http_get_paste env
    (buildUrl (endpoint env) ("/paste/query/" +:+ encodeURIComponent env id))
    (headers (userAgent env) None) = Ret res →
  num_strict_eq (code res) (num_of_Z 200) = true →
  has_puppeteer env = true → page_outcome env = Ret tt →
  succeeded (setViewport_outcome env (viewport_of options_width)) = true →
  let title := "剪贴板: " +:+ paste_id (data res) in
  let author :=
    match paste_author (data res) with
    | Some a =>
        "创建者: " +:+ author_name a +:+ " (UID: "
          +:+ String_of_number env (author_id a) +:+ ")"
    | None => "创建者 UID: " +:+ String_of_number env (paste_authorId (data res))
    end in
  let body :=
    match paste_content (data res), paste_renderedContent (data res) with
    | Some content, _ => content
    | None, Some rendered => rendered
    | None, None => EmptyString
    end in
  In (EvSetContent (generateHtml (md_render env) title author body) "networkidle0")
    (log (snd (run_command PasteCmd env (Some id) options_width n))).
Proof.
  intros Hid Hres Hcode Hp Hpage Hv title author body.
  start_command Hid. rewrite Hres, Hcode, Hp. cbv beta iota delta [acquire_page].
  rewrite Hpage. cbv beta iota.
  match goal with
  | |- context [paste_session env ?h options_width ?w] =>
      destruct (session_loads_snapshot PasteCmd env h options_width w Hv)
        as [rest Hlog];
      assert (Hh : h = generateHtml (md_render env) title author body)
  end.
  { subst title author body. unfold or_else.
    destruct (paste_content (data res)), (paste_renderedContent (data res));
      reflexivity. }
  cbn [session_of] in Hlog. rewrite Hlog, Hh.
  apply in_or_app. right. right. by left.
Qed.

Lemma paste_snapshot_loaded_witness :
  In (EvSetContent
        (generateHtml (md_render Samples.env_ok) ("剪贴板: " +:+ "1")
           ("创建者 UID: " +:+ "42") "Hello") "networkidle0")
    (log (snd (run_command PasteCmd Samples.env_ok (Some "1") None 3))).
Proof.
  apply (paste_snapshot_loaded Samples.env_ok "1" None 3
           (mkStdResponse (num_of_Z 200) "ok" Samples.paste_1));
    reflexivity.
Defined.

(** X23. The image wait of a command ends with the in-page promise, which
    is always fulfilled: awaiting it fails only when the evaluate call
    itself fails, and never by running out of time. *)
Theorem image_wait_step_ends (env : Env) (cmd : Command) (w : World) :
  (evaluate_fault env = None →
   page_image_wait env cmd w = (Ret tt, emit (EvImageWait cmd) w))
  ∧ (∀ e, evaluate_fault env = Some e →
          page_image_wait env cmd w = (Thrown e, emit (EvImageWait cmd) w)).
Proof.
  unfold page_image_wait, bind, do_emit, lift. split.
  - intros ->.
    destruct (ImageWaitFacts.image_wait_settles cmd (document_images env)
                (image_events env)) as [t ->].
    reflexivity.
  - intros e ->. reflexivity.
Qed.

Lemma image_wait_step_ends_witness :
  page_image_wait Samples.env_ok PasteCmd (start 2)
  = (Ret tt, emit (EvImageWait PasteCmd) (start 2)).
Proof.
  apply (proj1 (image_wait_step_ends Samples.env_ok PasteCmd (start 2))).
  reflexivity.
Defined.

End CaptureMore.

(** * More about the markup renderer *)

Module RenderMore.

Import Render Protocol.

Lemma prefix_app_l (x a b : string) :
  String.prefix x a = true → String.prefix x (a +:+ b) = true.
Proof.
  revert x. induction a as [|d a IH]; intros x H.
  - destruct x; [destruct b; reflexivity | discriminate].
  - change (String d a +:+ b) with (String d (a +:+ b)).
    destruct x as [|c x]; [reflexivity|]. cbn [String.prefix] in *.
    destruct (ascii_dec c d); [by apply IH | discriminate].
Qed.

Lemma ends_with_app (x a b : string) :
  ends_with x b = true → ends_with x (a +:+ b) = true.
Proof.
  intros H. induction a as [|c a IH]; [exact H|].
  change (String c a +:+ b) with (String c (a +:+ b)).
  cbn [ends_with]. rewrite IH. apply orb_true_r.
Qed.

(** X22. Whatever the title, the author line and the body are, and
    whatever the markdown engine makes of the body, the snapshot is one
    document: it starts with the doctype, ends with the closing [html] tag,
    and has the style sheet of the template before the title. *)
Theorem snapshot_is_one_document (md_render : MdConfig → string → string)
    (title authorInfo body : string) :
  String.prefix "<!doctype html>" (generateHtml md_render title authorInfo body)
  = true
  ∧ ends_with "</html>" (generateHtml md_render title authorInfo body) = true
  ∧ includes "</style>" page_head = true
  ∧ ∃ rest, generateHtml md_render title authorInfo body
            = page_head +:+ escapeHtml title +:+ rest.
Proof.
  unfold generateHtml. split; [|split; [|split]].
  - apply (prefix_app_l "<!doctype html>" page_head). vm_compute. reflexivity.
  - do 6 (apply ends_with_app). vm_compute. reflexivity.
  - vm_compute. reflexivity.
  - eexists. reflexivity.
Qed.

End RenderMore.

(** * The image wait as a race *)

Module ImageWaitRace.

Import ImageWait ImageWaitFacts ImageWaitMore RaceVocabulary.

Lemma total_hits_le (Q : list nat) (events : list ImgEvent) :
  fires_once events → (total_hits Q events ≤ length Q)%nat.
Proof.
  intros Hnd. induction Q as [|q Q IH]; [rewrite total_hits_nil; cbn; lia|].
  rewrite total_hits_cons. cbn [length].
  pose proof (count_in_NoDup q _ Hnd). lia.
Qed.

Lemma count_in_in (j : nat) (l : list nat) : (1 ≤ count_in j l)%nat → In j l.
Proof.
  intros H. destruct (in_dec Nat.eq_dec j l) as [Hin | Hout]; [exact Hin|].
  rewrite (count_in_absent j l Hout) in H. lia.
Qed.

(** When no image fires twice and the handler is called as many times as
    [P] has images, every image of [P] has fired. *)
Lemma total_hits_full (P : list nat) (events : list ImgEvent) :
  fires_once events → (length P ≤ total_hits P events)%nat →
  ∀ p, In p P → In p (map (fun ev => snd (fst ev)) events).
Proof.
  intros Hnd. induction P as [|q P IH]; intros Hlen p Hp; [destruct Hp|].
  rewrite total_hits_cons in Hlen. cbn [length] in Hlen.
  pose proof (count_in_NoDup q _ Hnd) as Hq.
  pose proof (total_hits_le P events Hnd) as HP.
  destruct Hp as [<- | Hp].
  - apply count_in_in. lia.
  - apply IH; [lia | exact Hp].
Qed.

Lemma before_in_order (pre post : list ImgEvent) (ev e : ImgEvent) :
  chronological (pre ++ ev :: post) → In e pre → fst (fst e) ≤ fst (fst ev).
Proof.
  unfold chronological. induction pre as [|a pre IH]; intros Hs Hin; [destruct Hin|].
  cbn [app] in Hs. apply StronglySorted_inv in Hs as [Hrest Hall].
  destruct Hin as [<- | Hin]; [|by apply IH].
  rewrite List.Forall_forall in Hall. apply Hall. apply in_elt.
Qed.

(** A promise that is pending with its timer running and is then fulfilled
    before the timer was fulfilled by the handler call of one event, the
    call that brought [loaded] to [n]. *)
Lemma event_loop_early (cmd : Command) (n : nat) (P : list nat)
    (events : list ImgEvent) (st : PState) (t : Z) :
  registry st = entries P → resolved st = None → timer st = Some 5000 →
  (loaded st < n)%nat →
  resolved (event_loop cmd n events st) = Some t → t < 5000 →
  ∃ pre ev post,
    events = (pre ++ ev :: post)%list ∧ fst (fst ev) = t
    ∧ (n ≤ loaded st + total_hits P (pre ++ [ev]))%nat.
Proof.
  revert st. induction events as [|ev rest IH]; intros st Hreg Hr Ht Hlt Hres Hearly.
  - cbn in Hres. unfold fire_timer in Hres. rewrite Ht in Hres. cbn in Hres.
    rewrite Hr in Hres. injection Hres as <-. lia.
  - cbn [event_loop] in Hres. destruct (timer_due (fst (fst ev)) st) eqn:Hdue.
    + rewrite (event_loop_kept cmd n rest _ 5000) in Hres.
      * injection Hres as <-. lia.
      * unfold dispatch. apply calls_settled. unfold fire_timer.
        rewrite Ht. cbn. by rewrite Hr.
    + destruct (Nat.lt_ge_cases
                  (loaded st + length (List.filter (listens ev) (registry st))) n)
        as [Hlow | Hfull].
      * destruct (calls_stay_pending cmd n (fst (fst ev)) _ st Hr Hlow)
          as (H1 & H2 & H3).
        destruct (IH (dispatch cmd n ev st)) as (pre & ev' & post & -> & Hev & Hn);
          unfold dispatch; try assumption.
        -- by rewrite calls_registry.
        -- congruence.
        -- rewrite H3. lia.
        -- exists (ev :: pre), ev', post. split; [reflexivity|]. split; [exact Hev|].
           unfold dispatch in Hn. rewrite H3, Hreg, calls_of_event in Hn.
           cbn [app total_hits]. lia.
      * destruct (calls_progress cmd n (fst (fst ev))
                    (List.filter (listens ev) (registry st)) st Hr Hlt)
          as [Hnow | (_ & Hld & Hlt')]; [|lia].
        rewrite (event_loop_kept cmd n rest _ (fst (fst ev))) in Hres
          by (unfold dispatch; exact Hnow).
        injection Hres as <-. exists [], ev, rest. split; [reflexivity|].
        split; [reflexivity|].
        rewrite Hreg, calls_of_event in Hfull. cbn [app total_hits]. lia.
Qed.

Lemma call_handlers_length (cmd : Command) (n : nat) (now : Z)
    (l l' : list (nat * EventType)) (st : PState) :
  length l = length l' →
  call_handlers cmd n now l st = call_handlers cmd n now l' st.
Proof.
  revert l' st. induction l as [|x l IH]; intros [|y l'] st Hlen;
    try discriminate Hlen; [reflexivity|].
  unfold call_handlers in *. cbn [fold_left]. apply IH. by injection Hlen.
Qed.

(** The type of an event makes no difference to what it does. *)
Lemma event_loop_retype (cmd : Command) (n : nat) (P : list nat)
    (f : EventType → EventType) (events : list ImgEvent) (st : PState) :
  registry st = entries P →
  event_loop cmd n (retype f events) st = event_loop cmd n events st.
Proof.
  revert st. induction events as [|ev rest IH]; intros st Hreg; [reflexivity|].
  cbn [retype map event_loop fst snd]. fold (retype f rest).
  set (st0 := if timer_due (fst (fst ev)) st then fire_timer st else st).
  assert (Hreg0 : registry st0 = entries P).
  { unfold st0. destruct (timer_due _ st); [by rewrite fire_timer_registry | exact Hreg]. }
  assert (Hd : dispatch cmd n (fst (fst ev), snd (fst ev), f (snd ev)) st0
               = dispatch cmd n ev st0).
  { unfold dispatch. cbn [fst snd]. apply call_handlers_length.
    rewrite Hreg0, !calls_of_event. reflexivity. }
  rewrite Hd. apply IH. unfold dispatch. by rewrite calls_registry.
Qed.

Lemma executor_entries (cmd : Command) (imgs : list Img) :
  registry (executor cmd imgs) = entries (pending_from 0 imgs).
Proof.
  destruct imgs as [|img imgs]; [destruct cmd; reflexivity|].
  by apply executor_registry.
Qed.

(** C3. With at least one image the wait of either command is a race
    between the images and a 5000 ms timer, and nothing else ends it.
    It is over no later than 5000 ms, whatever the images do.  It is over
    by [T] when by [T] every image that was not complete has fired [load] or
    [error].  It is not over before that: when no image fires twice and the
    events come in the order of their times, a wait that ends at [t] before
    5000 ms ends when every image that was not complete has fired, at [t]
    or earlier; and an image that never fires keeps the wait until 5000 ms
    exactly.  An [error] counts as a [load]: changing the types of the
    events changes nothing. *)
Theorem image_wait_is_a_race (cmd : Command) (imgs : list Img)
    (events : list ImgEvent) :
  imgs ≠ [] →
  settled_by 5000 (image_wait cmd imgs events)
  ∧ (∀ T, 0 ≤ T → T < 5000 →
       (∀ ev, In ev events → fst (fst ev) ≤ T) →
       (∀ j img, imgs !! j = Some img → complete img = false →
                 ∃ t k, In (t, j, k) events) →
       settled_by T (image_wait cmd imgs events))
  ∧ (fires_once events → chronological events →
     ∀ t, resolved (image_wait cmd imgs events) = Some t → t < 5000 →
     ∀ j img, imgs !! j = Some img → complete img = false →
              ∃ t' k, In (t', j, k) events ∧ t' ≤ t)
  ∧ (fires_once events →
     ∀ j img, imgs !! j = Some img → complete img = false →
              ¬ In j (map (fun ev => snd (fst ev)) events) →
              resolved (image_wait cmd imgs events) = Some 5000)
  ∧ (∀ f, image_wait cmd imgs (retype f events) = image_wait cmd imgs events).
Proof.
  intros Hne. split; [|split; [|split; [|split]]].
  - apply event_loop_bounded. by apply executor_bounded.
  - intros T HT0 HT Hev Hcov. unfold image_wait.
    apply (event_loop_completes cmd (length imgs) (pending_from 0 imgs));
      [exact HT | exact Hev | by apply executor_registry | apply executor_timer_ok |].
    destruct (executor_counts cmd imgs Hne) as [H0 | (Hr & Hlt & Hsum)].
    + left. exists 0. by split.
    + right. repeat split; [exact Hr | exact Hlt |].
      assert (length (pending_from 0 imgs) ≤ total_hits (pending_from 0 imgs) events)%nat.
      { apply total_hits_covers. intros j Hj.
        destruct (pending_from_lookup _ _ _ Hj) as [_ [img [Himg Hc]]].
        rewrite Nat.sub_0_r in Himg. by apply (Hcov j img). }
      lia.
  - intros Honce Hchron t Hres Hearly j img Himg Hc.
    pose proof (lookup_pending_from imgs 0 j img Himg Hc) as HjP. cbn in HjP.
    assert (HP : pending_from 0 imgs ≠ []) by (intros E; by rewrite E in HjP).
    destruct (executor_pending cmd imgs HP) as (Hr & Ht & Hsum).
    assert (Hpos : (0 < length (pending_from 0 imgs))%nat)
      by (destruct (pending_from 0 imgs); [by destruct HP | cbn; lia]).
    destruct (event_loop_early cmd (length imgs) (pending_from 0 imgs) events
                (executor cmd imgs) t)
      as (pre & ev & post & Hsplit & Htime & Hn);
      [apply executor_entries | exact Hr | exact Ht | lia | exact Hres | exact Hearly |].
    assert (Honce' : fires_once (pre ++ [ev])).
    { unfold fires_once in *. rewrite Hsplit in Honce.
      replace (pre ++ ev :: post)%list with ((pre ++ [ev]) ++ post)%list in Honce
        by (rewrite <- app_assoc; reflexivity).
      rewrite map_app in Honce. by apply NoDup_app_remove_r in Honce. }
    assert (Hin : In j (map (fun e => snd (fst e)) (pre ++ [ev])))
      by (apply (total_hits_full (pending_from 0 imgs)); [exact Honce' | lia | exact HjP]).
    apply in_map_iff in Hin as ([[t' j'] k] & Hj' & Hin). cbn in Hj'. subst j'.
    exists t', k. rewrite Hsplit in Hchron |- *.
    apply in_app_or in Hin as [Hin | [Heq | []]].
    + split; [apply in_or_app; by left|].
      rewrite <- Htime. apply (before_in_order pre post ev _ Hchron Hin).
    + subst ev. split; [apply in_elt | cbn in Htime; lia].
  - intros Honce j img Himg Hc Hj.
    pose proof (lookup_pending_from imgs 0 j img Himg Hc) as HjP. cbn in HjP.
    assert (HP : pending_from 0 imgs ≠ []) by (intros E; by rewrite E in HjP).
    destruct (executor_pending cmd imgs HP) as (Hr & Ht & Hsum).
    pose proof (total_hits_short _ events j Honce Hj HjP) as Hshort.
    unfold image_wait.
    apply (event_loop_times_out cmd (length imgs) (pending_from 0 imgs));
      [apply executor_entries|].
    right. repeat split; [exact Hr | exact Ht | lia].
  - intros f. unfold image_wait.
    apply (event_loop_retype cmd (length imgs) (pending_from 0 imgs)).
    apply executor_entries.
Qed.

Lemma image_wait_is_a_race_witness :
  settled_by 5000
    (image_wait ArticleCmd [mkImg false; mkImg true] [(30, 0%nat, OnError)])
  ∧ settled_by 30
      (image_wait ArticleCmd [mkImg false; mkImg true] [(30, 0%nat, OnError)])
  ∧ (∃ t' k, In (t', 0%nat, k) [(30, 0%nat, OnError)] ∧ t' ≤ 30)
  ∧ resolved (image_wait ArticleCmd [mkImg false; mkImg false] [(12, 0%nat, OnLoad)])
    = Some 5000.
Proof.
  assert (Hne : [mkImg false; mkImg true] ≠ []) by discriminate.
  assert (Hne2 : [mkImg false; mkImg false] ≠ []) by discriminate.
  assert (Honce : ∀ ev : ImgEvent, fires_once [ev])
    by (intros ev; unfold fires_once; cbn; repeat constructor; intros []).
  destruct (image_wait_is_a_race ArticleCmd [mkImg false; mkImg true]
              [(30, 0%nat, OnError)] Hne) as (Hceil & Hdone & Hnot_before & _).
  destruct (image_wait_is_a_race ArticleCmd [mkImg false; mkImg false]
              [(12, 0%nat, OnLoad)] Hne2) as (_ & _ & _ & Hhung & _).
  split; [exact Hceil|]. split; [|split].
  - apply Hdone; [lia | lia | |].
    + intros ev [<- | []]. cbn. lia.
    + intros [|[|j]] img Hj Hc; cbn in Hj; try discriminate.
      * exists 30, OnError. by left.
      * injection Hj as <-. discriminate.
  - apply (Hnot_before (Honce _)) with (t := 30) (img := mkImg false);
      try reflexivity.
    unfold chronological. repeat constructor.
  - apply (Hhung (Honce _) 1%nat (mkImg false)); try reflexivity.
    cbn. intros [H | []]. discriminate.
Defined.

End ImageWaitRace.

(** * Escaping in the snapshot *)

Module RenderEscaping.

Import Render RenderFacts RaceVocabulary Protocol.

Lemma prefix_nil (s : string) : String.prefix EmptyString s = true.
Proof. destruct s; reflexivity. Qed.

(** Reading back what [escapeHtml] wrote gives the text it was given. *)
Lemma unescape_escape (s : string) : unescapeHtml (escapeHtml s) = s.
Proof.
  unfold unescapeHtml. induction s as [|c s IH]; [reflexivity|].
  cbn [escapeHtml]. unfold escape_char.
  destruct (Ascii.eqb c "&"%char) eqn:Eamp.
  { apply Ascii.eqb_eq in Eamp. subst c.
    cbv beta iota delta [String.app]. cbn. by rewrite prefix_nil, IH. }
  destruct (Ascii.eqb c "<"%char) eqn:Elt.
  { apply Ascii.eqb_eq in Elt. subst c.
    cbv beta iota delta [String.app]. cbn. by rewrite prefix_nil, IH. }
  destruct (Ascii.eqb c ">"%char) eqn:Egt.
  { apply Ascii.eqb_eq in Egt. subst c.
    cbv beta iota delta [String.app]. cbn. by rewrite prefix_nil, IH. }
  destruct (Ascii.eqb c "034"%char) eqn:Edq.
  { apply Ascii.eqb_eq in Edq. subst c.
    cbv beta iota delta [String.app]. cbn. by rewrite prefix_nil, IH. }
  cbv beta iota delta [String.app].
  cbn [decode]. rewrite Eamp, IH. reflexivity.
Qed.

Lemma markup_free_prefix (x s : string) :
  String.prefix x s = true → markup_free s = true → markup_free x = true.
Proof.
  revert s. induction x as [|c x IH]; intros s Hp Hs; [reflexivity|].
  destruct s as [|d s]; [discriminate|]. cbn [String.prefix] in Hp.
  destruct (ascii_dec c d) as [-> | _]; [|discriminate].
  cbn [markup_free] in *. apply andb_true_iff in Hs as [Hd Hs].
  rewrite Hd. cbn. by apply (IH s).
Qed.

(** A text free of markup has no part that is not. *)
Lemma markup_free_includes (needle s : string) :
  markup_free s = true → markup_free needle = false → includes needle s = false.
Proof.
  intros Hs Hn. induction s as [|c s IH].
  - cbn [includes]. destruct (String.prefix needle EmptyString) eqn:Hp; [|reflexivity].
    rewrite (markup_free_prefix _ _ Hp Hs) in Hn. discriminate.
  - cbn [includes]. destruct (String.prefix needle (String c s)) eqn:Hp.
    + rewrite (markup_free_prefix _ _ Hp Hs) in Hn. discriminate.
    + cbn [markup_free] in Hs. apply andb_true_iff in Hs as [_ Hs]. by apply IH.
Qed.

Lemma includes_app_l (x s t : string) :
  includes x s = true → includes x (s +:+ t) = true.
Proof.
  induction s as [|c s IH]; intros H.
  - cbn [includes] in H. rewrite orb_false_r in H.
    destruct (EmptyString +:+ t) eqn:E; cbn [includes]; rewrite <- E;
      by rewrite (RenderMore.prefix_app_l x EmptyString t H).
  - change (String c s +:+ t) with (String c (s +:+ t)).
    cbn [includes] in *. apply orb_true_iff in H as [H | H].
    + change (String c (s +:+ t)) with (String c s +:+ t).
      by rewrite (RenderMore.prefix_app_l x (String c s) t H).
    + rewrite (IH H). apply orb_true_r.
Qed.

Section escaping.

Variable md_render : MdConfig → string → string.

(** C9. In the snapshot the title stands between the tags of the title
    heading and the author line between those of the [meta] block, each
    only as [escapeHtml] of it, whatever it is.  The escaped text is the
    given text with each [&], [<], [>] and double quote replaced by its
    entity and nothing else changed: reading the entities back gives the
    text again, and the escaped text has no [<], no [>], no double quote and
    so no part that has one.  The markdown engine is built with
    [html: true], and what it renders from the body stands in the snapshot
    as it is, between the tags of the article: whatever raw HTML an engine
    with [html] on lets through for the body is in the snapshot
    unchanged. *)
Theorem title_and_author_escaped_body_verbatim
    (title authorInfo body raw : string) :
  generateHtml md_render title authorInfo body
  = page_head +:+ escapeHtml title +:+ page_after_title
      +:+ escapeHtml authorInfo +:+ page_after_meta
      +:+ md_render generateHtml_config body +:+ page_tail
  ∧ (ends_with ("<h1 class=" +:+ dq +:+ "title" +:+ dq +:+ ">") page_head = true
     ∧ String.prefix "</h1>" page_after_title = true
     ∧ ends_with ("<div class=" +:+ dq +:+ "meta" +:+ dq +:+ ">") page_after_title
       = true
     ∧ String.prefix "</div>" page_after_meta = true
     ∧ includes ("<article class=" +:+ dq +:+ "markdown-body" +:+ dq +:+ ">")
         page_after_meta = true
     ∧ includes "</article>" page_tail = true)
  ∧ (unescapeHtml (escapeHtml title) = title
     ∧ unescapeHtml (escapeHtml authorInfo) = authorInfo)
  ∧ (markup_free (escapeHtml title) = true
     ∧ markup_free (escapeHtml authorInfo) = true)
  ∧ (∀ needle, markup_free needle = false →
       includes needle (escapeHtml title) = false
       ∧ includes needle (escapeHtml authorInfo) = false)
  ∧ (escape_char "&"%char = "&amp;" ∧ escape_char "<"%char = "&lt;"
     ∧ escape_char ">"%char = "&gt;" ∧ escape_char "034"%char = "&quot;")
  ∧ (∀ c, c ≠ "&"%char → c ≠ "<"%char → c ≠ ">"%char → c ≠ "034"%char →
          escape_char c = String c EmptyString)
  ∧ (∀ s t, escapeHtml (s +:+ t) = escapeHtml s +:+ escapeHtml t)
  ∧ md_html generateHtml_config = true
  ∧ includes (md_render generateHtml_config body)
      (generateHtml md_render title authorInfo body) = true
  ∧ ((∀ cfg, md_html cfg = true → includes raw (md_render cfg body) = true) →
     includes raw (generateHtml md_render title authorInfo body) = true).
Proof.
  split; [reflexivity|].
  split; [vm_compute; repeat split|].
  split; [split; apply unescape_escape|].
  split; [split; apply markup_free_escapeHtml|].
  split.
  { intros needle Hn.
    split; apply markup_free_includes; try exact Hn; apply markup_free_escapeHtml. }
  split; [repeat split|].
  split; [apply escape_char_other|].
  split.
  { intros s t. induction s as [|c s IH]; [reflexivity|].
    change (String c s +:+ t) with (String c (s +:+ t)).
    cbn [escapeHtml]. rewrite IH.
    generalize (escape_char c). intros e.
    induction e as [|d e IHe]; [reflexivity|].
    change (String d e +:+ escapeHtml s +:+ escapeHtml t)
      with (String d (e +:+ escapeHtml s +:+ escapeHtml t)).
    rewrite IHe. reflexivity. }
  split; [reflexivity|].
  split.
  { unfold generateHtml. do 5 (apply includes_later). apply includes_here. }
  intros Hengine. unfold generateHtml. do 5 (apply includes_later).
  apply includes_app_l. apply Hengine. reflexivity.
Qed.

End escaping.

Lemma title_and_author_escaped_body_verbatim_witness :
  escape_char "T"%char = "T"
  ∧ includes "<u>" (escapeHtml "<u>T</u>") = false
  ∧ includes "<u>raw</u>"
      (generateHtml (fun cfg body => if md_html cfg then body else escapeHtml body)
         "<u>T</u>" "作者 UID: 42" "a <u>raw</u> b") = true.
Proof.
  pose proof (title_and_author_escaped_body_verbatim
                (fun cfg body => if md_html cfg then body else escapeHtml body)
                "<u>T</u>" "作者 UID: 42" "a <u>raw</u> b" "<u>raw</u>")
    as (_ & _ & _ & _ & Hneedle & _ & Hother & _ & _ & _ & Hraw).
  split; [apply Hother; discriminate|].
  split; [apply Hneedle; reflexivity|].
  apply Hraw. intros cfg ->. reflexivity.
Defined.

End RenderEscaping.
